(** * WarSoul_Monitor: the analytics core of [app/monitor.py]

    A shallow embedding of [calculate_trend_analysis],
    [calculate_price_analysis], [calculate_investment_advice] and of the
    analysis loop and ranking of [run], followed by the properties of the
    specification that concern them.

    Numbers.  Python floats are modelled as exact rationals ([Q]); a float
    comparison is the comparison of the rationals and float equality is
    [Qeq].  Rounding error of the IEEE operations is outside the model.
    Statements about numeric results therefore use [==] on [Q].

    Exceptions.  The operations that can raise in Python (true division,
    [max]/[min] of a sequence, indexing, [statistics.mean]) return in the
    [result] monad; the analysers built from them do too, so that "does
    not raise" is a theorem and not a convention.

    Text.  The slot function, the readers and the writer of the history
    file and the report text are embedded as well.  The text functions of
    Python they call ([readlines], [str.strip], [str.split], [float],
    [str] and the float formats) are parameters of those definitions: what
    is proved about them holds whatever these functions do. *)

From Stdlib Require Import QArith Qabs Qround ZArith String List Lia Lqa.
From Stdlib Require Import Qminmax Sorted Permutation.
From stdpp Require Import gmap strings.

(** ** Python primitives *)
Module Py.

Inductive exn : Set :=
  | ZeroDivisionError
  | ValueError
  | IndexError
  | KeyError
  | StatisticsError.

Inductive result (A : Type) : Type :=
  | Ok (a : A)
  | Raise (e : exn).
Arguments Ok {A} a.
Arguments Raise {A} e.

#[export] Instance result_ret : MRet result := fun _ a => Ok a.
#[export] Instance result_bind : MBind result := fun _ _ f m =>
  match m with
  | Ok a => f a
  | Raise e => Raise e
  end.

Definition returns {A} (m : result A) : Prop := exists a, m = Ok a.

(** Comparisons of floats, as booleans. *)
Definition Qltb (a b : Q) : bool :=
  match (a ?= b)%Q with Lt => true | _ => false end.
Definition Qleb (a b : Q) : bool := Qle_bool a b.

(** [a / b]: raises [ZeroDivisionError] when the divisor is zero. *)
Definition truediv (a b : Q) : result Q :=
  if Qeq_bool b 0 then Raise ZeroDivisionError else Ok (a / b)%Q.

(** [max(a, b)] and [min(a, b)] of two arguments: the first argument is
    kept unless the second is strictly larger (resp. smaller). *)
Definition max2 (a b : Q) : Q := if Qltb a b then b else a.
Definition min2 (a b : Q) : Q := if Qltb b a then b else a.

(** [max(l)] and [min(l)] of a sequence: [ValueError] on the empty one. *)
Definition max (l : list Q) : result Q :=
  match l with
  | [] => Raise ValueError
  | x :: t => Ok (fold_left max2 t x)
  end.
Definition min (l : list Q) : result Q :=
  match l with
  | [] => Raise ValueError
  | x :: t => Ok (fold_left min2 t x)
  end.

Definition sum (l : list Q) : Q := fold_left Qplus l 0%Q.

Definition len {A} (l : list A) : Z := Z.of_nat (length l).

(** [statistics.mean(l)]. *)
Definition mean (l : list Q) : result Q :=
  match l with
  | [] => Raise StatisticsError
  | _ => Ok (sum l / inject_Z (len l))%Q
  end.

(** [l[i]] with Python's negative indices. *)
Definition getitem {A} (l : list A) (i : Z) : result A :=
  let j := if (i <? 0)%Z then (i + len l)%Z else i in
  if (j <? 0)%Z then Raise IndexError
  else match nth_error l (Z.to_nat j) with
       | Some x => Ok x
       | None => Raise IndexError
       end.

(** [l[-k:]] for [k >= 0]; [l[-0:]] is the whole list. *)
Definition last_slice {A} (k : nat) (l : list A) : list A :=
  match k with
  | O => l
  | _ => skipn (length l - k) l
  end.

(** [needle in hay] on strings.  Strings are UTF-8 byte sequences; since
    UTF-8 is self-synchronising a byte-level substring test on well-formed
    texts agrees with the code-point-level one. *)
Fixpoint str_in (needle hay : string) : bool :=
  String.prefix needle hay ||
  match hay with
  | EmptyString => false
  | String _ rest => str_in needle rest
  end.

(** [s * n] on a string: the empty string for [n <= 0]. *)
Fixpoint str_repeat (s : string) (n : nat) : string :=
  match n with
  | O => EmptyString
  | S k => s +:+ str_repeat s k
  end.
Definition str_mul (s : string) (n : Z) : string := str_repeat s (Z.to_nat n).

(** [round(x)] to an integer: to nearest, ties to the even neighbour. *)
Definition round (x : Q) : Z :=
  let f := Qfloor x in
  let r := (x - inject_Z f)%Q in
  match (r ?= 1 # 2)%Q with
  | Lt => f
  | Gt => (f + 1)%Z
  | Eq => if Z.even f then f else (f + 1)%Z
  end.

(** [sorted(l, key=key)] and [sorted(l, key=key, reverse=True)]: a stable
    sort.  [ltb] is [<] on keys; [before] is the strict order in which
    the output is to be arranged.  An element is inserted in front of the
    already sorted later elements and moves right only past keys that
    strictly precede its own, so equal keys keep their input order, in
    both directions. *)
Section Sorted.
Context {A K : Type} (ltb : K -> K -> bool) (key : A -> K) (reverse : bool).

Definition before (a b : K) : bool := if reverse then ltb b a else ltb a b.

Fixpoint insert_stable (x : A) (l : list A) : list A :=
  match l with
  | [] => [x]
  | y :: t => if before (key y) (key x) then y :: insert_stable x t
              else x :: y :: t
  end.

Definition sorted (l : list A) : list A := fold_right insert_stable [] l.

(** The arrangement a stable sort is to achieve, [T] being the order of
    the input: [a] stands before [b] when its key comes strictly first,
    or when neither key comes strictly first and [a] was before [b]. *)
Definition arranged (T : A -> A -> Prop) (a b : A) : Prop :=
  before (key a) (key b) = true \/
  (before (key b) (key a) = false /\ T a b).
End Sorted.

(** An insertion-ordered dict with integer keys, as the list of its items:
    [d[k]] raises [KeyError] on a missing key, and [d[k] = v] replaces the
    value of a present key in place and appends a new key at the end. *)
Fixpoint dict_getitem {V} (d : list (Z * V)) (k : Z) : result V :=
  match d with
  | [] => Raise KeyError
  | (k', v) :: t => if (k' =? k)%Z then Ok v else dict_getitem t k
  end.

Fixpoint dict_setitem {V} (d : list (Z * V)) (k : Z) (v : V) : list (Z * V) :=
  match d with
  | [] => [(k, v)]
  | (k', v') :: t =>
      if (k' =? k)%Z then (k, v) :: t else (k', v') :: dict_setitem t k v
  end.

(** [enumerate(l, start)]. *)
Fixpoint enumerate {A} (start : Z) (l : list A) : list (Z * A) :=
  match l with
  | [] => []
  | x :: t => (start, x) :: enumerate (start + 1) t
  end.

End Py.
Import Py.

(** ** The analysis functions of [app/monitor.py] *)

(** The dict returned by [calculate_trend_analysis]. *)
Record TrendResult : Type := mkTrend {
  short_trend : string;
  mid_trend : string;
  trend_strength : Q;
  trend_description : string;
  short_slope : Q;
  mid_slope : Q;
  prices : list Q
}.

(** The dict returned by [calculate_price_analysis]; the keys ['min'] and
    ['max'] are named after the locals they are filled from. *)
Record PriceAnalysis : Type := mkPrice {
  avg : Q;
  min_price : Q;
  max_price : Q;
  from_min_points : Q;
  from_min_percent : Q;
  from_max_points : Q;
  from_max_percent : Q;
  percentile : Q;
  sample_size : Z
}.

(** The dict returned by [calculate_investment_advice]. *)
Record Advice : Type := mkAdvice {
  advice : string;
  advice_emoji : string;
  priority_score : Q;
  stars : string;
  position_level : string;
  position_score : Q;
  trend_adjustment : Q;
  trend_direction : Z;
  reason : string;
  action_desc : string;
  confidence : string
}.

(** *** [calculate_trend_analysis] *)

(** The label of insufficient data. *)
Definition insufficient : string := "数据不足".

(** The early return for fewer than three prices. *)
Definition insufficient_trend (prices : list Q) : TrendResult :=
  {| short_trend := insufficient; mid_trend := insufficient;
     trend_strength := 0; trend_description := insufficient;
     short_slope := 0; mid_slope := 0; prices := prices |}.

(** The nested function [get_trend_direction]. *)
Definition get_trend_direction (slope strength : Q) : string :=
  if Qltb strength 0.5 then "横盘"
  else if Qltb 0 slope && Qltb 2 strength then "强势上升"
  else if Qltb 0 slope then "温和上升"
  else if Qltb slope 0 && Qltb 2 strength then "强势下降"
  else "温和下降".

(** [short_trend_slope]: the slope across the last three prices. *)
Definition short_trend_slope_of (prices : list Q) : result Q :=
  let recent_3 := last_slice 3 prices in
  if (length recent_3 =? 3)%nat then
    a ← getitem recent_3 (-1);
    b ← getitem recent_3 0;
    truediv (a - b) 2
  else Ok 0%Q.

(** [mid_trend_slope]: the slope across the last [min(7, n)] prices. *)
Definition mid_trend_slope_of (prices : list Q) : result Q :=
  let mid_window := Nat.min 7 (length prices) in
  let recent_mid := last_slice mid_window prices in
  if (2 <=? length recent_mid)%nat then
    a ← getitem recent_mid (-1);
    b ← getitem recent_mid 0;
    truediv (a - b) (inject_Z (len recent_mid - 1))
  else Ok 0%Q.

(** The normalisation block: [(short_strength, mid_strength)] from the
    two slopes and the range of all prices. *)
Definition strengths_of (prices : list Q) (short_trend_slope mid_trend_slope : Q)
  : result (Q * Q) :=
  hi ← Py.max prices;
  lo ← Py.min prices;
  let price_range := (hi - lo)%Q in
  if Qltb 0 price_range then
    s ← truediv (Qabs short_trend_slope) price_range;
    m ← truediv (Qabs mid_trend_slope) price_range;
    Ok (s * 100, m * 100)%Q
  else Ok (0, 0)%Q.

(** The text [trend_desc] built from the two directions. *)
Definition trend_desc_of (short_direction mid_direction : string)
    (short_strength mid_strength : Q) : string :=
  if String.eqb short_direction mid_direction then
    mid_direction +:+ "，趋势稳定"
  else if str_in "上升" mid_direction && str_in "上升" short_direction then
    if Qltb mid_strength short_strength then mid_direction +:+ "，短期加速"
    else mid_direction +:+ "，短期减速"
  else if str_in "下降" mid_direction && str_in "下降" short_direction then
    if Qltb mid_strength short_strength then mid_direction +:+ "，短期加速"
    else mid_direction +:+ "，短期减速"
  else if (str_in "上升" mid_direction && str_in "下降" short_direction)
          || (str_in "下降" mid_direction && str_in "上升" short_direction) then
    mid_direction +:+ "，短期反转"
  else "中期" +:+ mid_direction +:+ "，短期" +:+ short_direction.

Definition calculate_trend_analysis (prices : list Q) : result TrendResult :=
  if (length prices <? 3)%nat then Ok (insufficient_trend prices)
  else
    short_trend_slope ← short_trend_slope_of prices;
    mid_trend_slope ← mid_trend_slope_of prices;
    st ← strengths_of prices short_trend_slope mid_trend_slope;
    let short_strength := fst st in
    let mid_strength := snd st in
    let short_direction := get_trend_direction short_trend_slope short_strength in
    let mid_direction := get_trend_direction mid_trend_slope mid_strength in
    let trend_desc :=
      trend_desc_of short_direction mid_direction short_strength mid_strength in
    Ok {| short_trend := short_direction; mid_trend := mid_direction;
          trend_strength := (short_strength + mid_strength) / 2;
          trend_description := trend_desc;
          short_slope := short_trend_slope; mid_slope := mid_trend_slope;
          prices := prices |}.

(** *** [calculate_price_analysis] *)

(** The percentage block: [(from_min_percent, from_max_percent)]. *)
Definition percents_of (from_min_points from_max_points price_range : Q)
  : result (Q * Q) :=
  if Qltb 0 price_range then
    a ← truediv from_min_points price_range;
    b ← truediv from_max_points price_range;
    Ok (a * 100, b * 100)%Q
  else Ok (0, 0)%Q.

Definition calculate_price_analysis (current_price : Q) (historical_prices : list Q)
  : result PriceAnalysis :=
  match historical_prices with
  | [] =>
      Ok {| avg := current_price; min_price := current_price;
            max_price := current_price;
            from_min_points := 0; from_min_percent := 0;
            from_max_points := 0; from_max_percent := 0;
            percentile := 50; sample_size := 0 |}
  | _ =>
      let all_prices := historical_prices ++ [current_price] in
      avg_price ← mean all_prices;
      min_price ← Py.min all_prices;
      max_price ← Py.max all_prices;
      let from_min_points := (current_price - min_price)%Q in
      let from_max_points := (current_price - max_price)%Q in
      let price_range := (max_price - min_price)%Q in
      pc ← percents_of from_min_points from_max_points price_range;
      let lower_count :=
        len (List.filter (fun p => Qltb p current_price) all_prices) in
      q ← truediv (inject_Z lower_count) (inject_Z (len all_prices));
      let percentile := (q * 100)%Q in
      Ok {| avg := avg_price; min_price := min_price; max_price := max_price;
            from_min_points := from_min_points; from_min_percent := fst pc;
            from_max_points := from_max_points; from_max_percent := snd pc;
            percentile := percentile;
            sample_size := len historical_prices |}
  end.

(** *** [calculate_investment_advice] *)

Local Open Scope Q_scope.

(** [position_level]: the first [if]/[elif] chain. *)
Definition position_level_of (percentile : Q) : string :=
  if Qleb percentile 15 then "极低位"
  else if Qleb percentile 35 then "低位"
  else if Qleb percentile 65 then "中位"
  else if Qleb percentile 85 then "高位"
  else "极高位".

(** [direction]: the chain of substring tests on [mid_trend], whose last
    branch is a bare [else]. *)
Definition direction_of (mid_trend : string) : Z :=
  if str_in "强势上升" mid_trend then 2%Z
  else if str_in "温和上升" mid_trend then 1%Z
  else if str_in "横盘" mid_trend then 0%Z
  else if str_in "温和下降" mid_trend then (-1)%Z
  else (-2)%Z.

Definition is_reversing_up_of (desc short_trend : string) (direction : Z) : bool :=
  str_in "反转" desc && str_in "上升" short_trend && (direction <? 0)%Z.

Definition is_reversing_down_of (desc short_trend : string) (direction : Z) : bool :=
  str_in "反转" desc && str_in "下降" short_trend && (0 <? direction)%Z.

(** [abs(direction)] and [direction] as floats. *)
Definition fabs (direction : Z) : Q := inject_Z (Z.abs direction).
Definition fl (direction : Z) : Q := inject_Z direction.

(** The decision table: [(trend_adj, reason)] before the reversal
    overrides.  The branches are tested in the order of the source:
    [percentile <= 15], [percentile <= 35], [65 < percentile < 85],
    [percentile >= 85], and the [else] for what remains. *)
Definition base_adjustment (percentile : Q) (desc : string) (direction : Z)
  : Q * string :=
  if Qleb percentile 15 then
    if (direction <=? -1)%Z then (5.0 + fabs direction * 2.0, "极低位深跌，强烈买入信号")
    else if (1 <=? direction)%Z then (4.5 + fl direction * 1.5, "极低位反弹，强烈买入")
    else (4.0, "极低位盘整，强烈买入")
  else if Qleb percentile 35 then
    if (direction <=? -1)%Z then (4.0 + fabs direction * 1.5, "低位深跌，抄底良机")
    else if (1 <=? direction)%Z then (3.5 + fl direction * 1.2, "低位反弹，趋势向好")
    else (3.0, "低位盘整，可逐步建仓")
  else if Qltb 65 percentile && Qltb percentile 85 then
    if (1 <=? direction)%Z then
      ((if (direction =? 2)%Z then 2.5 else 2.8), "高位上涨，谨慎持有")
    else if (direction <=? -1)%Z then
      if str_in "反转" desc then (1.5, "高位回落但出现反转信号，观望为主")
      else (-1.0 - fabs direction * 0.5, "高位回落，建议减仓")
    else (1.8, "高位盘整，注意风险")
  else if Qleb 85 percentile then
    if (1 <=? direction)%Z then (-4.0 - fl direction * 1.0, "极高位追涨，风险极大")
    else if (direction <=? -1)%Z then (-2.0 - fabs direction * 0.8, "极高位回落，及时止盈")
    else (-2.0, "极高位盘整，警惕回调")
  else
    (fl direction * 1.0,
     if (1 <=? direction)%Z then "中位上涨，可适量参与"
     else if (direction <=? -1)%Z then "中位下跌，暂时观望"
     else "中位盘整，等待方向").

(** The reversal overrides applied to [(trend_adj, reason)]. *)
Definition reversal_override (percentile : Q)
    (is_reversing_up is_reversing_down : bool) (base : Q * string) : Q * string :=
  let '(trend_adj, reason) := base in
  if is_reversing_up then
    (trend_adj + (if Qleb percentile 35 then 2.0
                  else if Qleb percentile 65 then 1.5 else 1.0),
     if Qleb percentile 35 then "低位止跌反弹，强烈买入"
     else if Qleb percentile 65 then "中位止跌反弹，可适量买入"
     else "高位止跌反弹，谨慎持有，可适当加仓")
  else if is_reversing_down then
    (trend_adj - (if Qleb 85 percentile then 2.0
                  else if Qleb 65 percentile then 1.5 else 0.5),
     if Qleb 85 percentile then "极高位冲高回落，强烈卖出"
     else if Qleb 65 percentile then "高位冲高回落，建议减仓"
     else "中低位冲高回落，暂时观望")
  else (trend_adj, reason).

(** [final_score_internal] and [score_display]. *)
Definition final_score_internal_of (position_score trend_adj : Q) : Q :=
  max2 0 (min2 15 (position_score + trend_adj)).
Definition score_display_of (final_score_internal : Q) : Q :=
  min2 10 (final_score_internal * 10 / 15).

(** The recommendation bucket: [(advice, emoji, action)]. *)
Definition recommendation (score_display : Q) : string * string * string :=
  if Qleb 8.5 score_display then ("💰💰💰强烈买入", "💰💰💰", "满仓买入")
  else if Qleb 7.0 score_display then ("💰💰买入", "💰💰", "重仓买入")
  else if Qleb 5.5 score_display then ("💰建议买入", "💰", "适量买入")
  else if Qleb 4.5 score_display then ("👀观望等待", "👀", "暂时观望")
  else if Qleb 3.0 score_display then ("⚠️谨慎持有", "⚠️", "谨慎持有，可适当加仓")
  else if Qleb 2.0 score_display then ("💸建议卖出", "💸", "建议减仓")
  else if Qleb 1.0 score_display then ("💸💸卖出", "💸💸", "重仓减仓")
  else ("💸💸💸强烈卖出", "💸💸💸", "清仓离场").

(** The number of stars, [max(1, min(5, round(score_display / 2)))]. *)
Definition stars_count (score_display : Q) : Z :=
  Z.max 1 (Z.min 5 (Py.round (score_display / 2))).

(** [confidence], from the length of the ['prices'] entry of the trend. *)
Definition confidence_of (prices : list Q) : string :=
  if (len prices <? 5)%Z then "低"
  else if (len prices <? 15)%Z then "中" else "高".

Definition calculate_investment_advice (percentile : Q) (trend_analysis : TrendResult)
  : Advice :=
  let position_level := position_level_of percentile in
  let position_score := (10 - percentile / 10) in
  let mid_trend := mid_trend trend_analysis in
  let short_trend := short_trend trend_analysis in
  let desc := trend_description trend_analysis in
  let direction := direction_of mid_trend in
  let is_reversing_up := is_reversing_up_of desc short_trend direction in
  let is_reversing_down := is_reversing_down_of desc short_trend direction in
  let '(trend_adj, reason) :=
    reversal_override percentile is_reversing_up is_reversing_down
      (base_adjustment percentile desc direction) in
  let final_score_internal := final_score_internal_of position_score trend_adj in
  let score_display := score_display_of final_score_internal in
  let '(advice, emoji, action) := recommendation score_display in
  let stars := str_mul "⭐" (stars_count score_display) in
  let prices := prices trend_analysis in
  let confidence := confidence_of prices in
  {| advice := advice; advice_emoji := emoji; priority_score := score_display;
     stars := stars; position_level := position_level;
     position_score := position_score; trend_adjustment := trend_adj;
     trend_direction := direction; reason := reason; action_desc := action;
     confidence := confidence |}.

(** *** The analysis loop and the ranking of [run] *)

Definition COMMERCE_MAP : list (Z * string) :=
  [ (1%Z, "地精金库"); (2%Z, "史莱姆保护协会"); (3%Z, "传说武库");
    (4%Z, "明钻商户"); (5%Z, "魔龙教会") ].

(** The value stored in [commerce_analysis] for one entity. *)
Record Entry : Type := mkEntry {
  name : string;
  entry_priority_score : Q
}.

(** The three calls in the body of the loop: position, trend on the
    history with the current price appended, and the advice from both. *)
Definition analyse (cur : Q) (hist : list Q)
  : result (PriceAnalysis * TrendResult * Advice) :=
  pa ← calculate_price_analysis cur hist;
  trend ← calculate_trend_analysis (hist ++ [cur]);
  let adv := calculate_investment_advice (percentile pa) trend in
  Ok (pa, trend, adv).

(** [for cid in sorted(COMMERCE_MAP.keys())], with [commerce_analysis]
    threaded through.  [commerce_data] and [historical] are the dicts of
    current prices and of histories. *)
Fixpoint analysis_loop (cids : list Z)
    (commerce_data : gmap Z Q) (historical : gmap Z (list Q))
    (commerce_analysis : list (Z * Entry)) : result (list (Z * Entry)) :=
  match cids with
  | [] => Ok commerce_analysis
  | cid :: rest =>
      match commerce_data !! cid with
      | None => analysis_loop rest commerce_data historical commerce_analysis
      | Some cur =>
          name ← dict_getitem COMMERCE_MAP cid;
          let hist := default [] (historical !! cid) in
          r ← analyse cur hist;
          let adv := snd r in
          analysis_loop rest commerce_data historical
            (dict_setitem commerce_analysis cid
               {| name := name; entry_priority_score := priority_score adv |})
      end
  end.

Definition commerce_analysis_of (commerce_data : gmap Z Q)
    (historical : gmap Z (list Q)) : result (list (Z * Entry)) :=
  analysis_loop (Py.sorted Z.ltb id false (map fst COMMERCE_MAP))
    commerce_data historical [].

(** [enumerate(sorted(commerce_analysis.items(),
                      key=lambda x: x[1]['priority_score'], reverse=True), 1)]. *)
Definition ranking (commerce_analysis : list (Z * Entry)) : list (Z * (Z * Entry)) :=
  enumerate 1
    (Py.sorted Qltb (fun x => entry_priority_score (snd x)) true commerce_analysis).

Definition run_ranking (commerce_data : gmap Z Q) (historical : gmap Z (list Q))
  : result (list (Z * (Z * Entry))) :=
  commerce_analysis ← commerce_analysis_of commerce_data historical;
  Ok (ranking commerce_analysis).

(** The order of the ranking between an earlier line [x] and a later line
    [y]: the score does not increase, and on equal scores the entity id
    increases. *)
Definition ranked_before (x y : Z * Entry) : Prop :=
  entry_priority_score (snd y) <= entry_priority_score (snd x) /\
  (entry_priority_score (snd x) == entry_priority_score (snd y) ->
   (fst x < fst y)%Z).

(** *** Time slots: [get_slot] *)

(** The instant [now], as far as [get_slot] reads it: the calendar date as
    a day number and [now.hour].  [strftime] is not modelled; a slot date
    is returned as its day number. *)
Record datetime : Type := mkDatetime {
  day : Z;
  hour : Z
}.

Definition SLOTS : list (Z * Z * string) :=
  [ (10%Z, 14%Z, "10:00"); (14%Z, 18%Z, "14:00");
    (18%Z, 22%Z, "18:00"); (22%Z, 24%Z, "22:00") ].

(** The [for start_h, end_h, label in SLOTS] loop: the label of the first
    slot containing [h], or [None] when the loop ends without a [return]. *)
Fixpoint slot_loop (slots : list (Z * Z * string)) (h : Z) : option string :=
  match slots with
  | [] => None
  | (start_h, end_h, label) :: rest =>
      if (start_h <=? h)%Z && (h <? end_h)%Z then Some label
      else slot_loop rest h
  end.

Definition get_slot (now : datetime) : Z * string :=
  let h := hour now in
  if (h <? 10)%Z then ((day now - 1)%Z, "22:00")
  else match slot_loop SLOTS h with
       | Some label => (day now, label)
       | None => (day now, "22:00")
       end.

(** *** The history file: [load_historical_data], [save_data_row],
    [build_series_from_history] *)

(** A loop whose body may raise. *)
Fixpoint fold_result {A S : Type} (f : S -> A -> result S) (l : list A) (s : S)
  : result S :=
  match l with
  | [] => Ok s
  | x :: t => s' ← f s x; fold_result f t s'
  end.

Fixpoint map_result {A B : Type} (f : A -> result B) (l : list A) : result (list B) :=
  match l with
  | [] => Ok []
  | x :: t => y ← f x; ys ← map_result f t; Ok (y :: ys)
  end.

(** The text ["\n"]. *)
Definition newline : string := String (Ascii.ascii_of_nat 10) EmptyString.

(** [sep.join(l)]. *)
Fixpoint str_join (sep : string) (l : list string) : string :=
  match l with
  | [] => ""
  | [x] => x
  | x :: t => x +:+ sep +:+ str_join sep t
  end.

(** [sorted(COMMERCE_MAP.keys())]. *)
Definition sorted_cids : list Z := Py.sorted Z.ltb id false (map fst COMMERCE_MAP).

(** [[COMMERCE_MAP[cid] for cid in sorted(COMMERCE_MAP.keys())]]. *)
Definition commerce_names : result (list string) :=
  map_result (dict_getitem COMMERCE_MAP) sorted_cids.

(** One series of the chart payload. *)
Record Series : Type := mkSeries {
  series_id : Z;
  series_name : string;
  values : list (option Q)
}.

(** The chart payload of [build_series_from_history]. *)
Record ChartPayload : Type := mkPayload {
  updated_at : string;
  x : list string;
  series : list Series
}.

(** The file [price_history.txt] is [None] when it does not exist and its
    text otherwise.  The text functions of Python that the file code calls
    are taken as they are: [readlines] of a text file, [str.strip],
    [str.split] without argument, [float] of a string ([None] when it
    raises; non-finite results are outside the model) and [str] of a
    price.  Messages printed on the way are not part of the model. *)
Section HistoryFile.
Context (readlines : string -> list string) (strip : string -> string)
        (split : string -> list string) (float_of : string -> option Q)
        (str_of_price : Q -> string).

(** [[ln.strip() for ln in f.readlines() if ln.strip()]]. *)
Definition stripped_lines (content : string) : list string :=
  map strip
    (List.filter (fun ln => negb (String.eqb (strip ln) "")) (readlines content)).

(** [{cid: [] for cid in COMMERCE_MAP.keys()}]. *)
Definition empty_history : gmap Z (list Q) :=
  fold_left (fun h cid => <[cid := []]> h) (map fst COMMERCE_MAP) ∅.

(** [float(parts[idx])] inside a [try]: [None] when the index or the
    conversion raises. *)
Definition parse_cell (parts : list string) (idx : Z) : option Q :=
  match getitem parts idx with
  | Raise _ => None
  | Ok tok => float_of tok
  end.

(** The body of the inner loop of [load_historical_data]: everything
    raised inside the [try], also by [hist[cid]], is swallowed. *)
Definition load_cell (parts : list string) (hist : gmap Z (list Q))
    (idx_cid : Z * Z) : gmap Z (list Q) :=
  let '(idx, cid) := idx_cid in
  match parse_cell parts idx with
  | None => hist
  | Some price =>
      match hist !! cid with
      | None => hist
      | Some l => <[cid := l ++ [price]]> hist
      end
  end.

Definition load_line (hist : gmap Z (list Q)) (line : string) : gmap Z (list Q) :=
  let parts := split line in
  if (len parts <? 2 + len COMMERCE_MAP)%Z then hist
  else fold_left (load_cell parts) (enumerate 2 sorted_cids) hist.

Definition load_historical_data (file : option string) : result (gmap Z (list Q)) :=
  let hist := empty_history in
  match file with
  | None => Ok hist
  | Some content =>
      let lines := stripped_lines content in
      match lines with
      | [] => Ok hist
      | _ =>
          l0 ← getitem lines 0;
          let header := split l0 in
          names ← commerce_names;
          let expected_header := ["日期"; "时间"] ++ names in
          if negb (bool_decide (header = expected_header)) then Ok hist
          else Ok (fold_left load_line (skipn 1 lines) hist)
      end
  end.

(** The text of the row that [save_data_row] writes: [" ".join(row)],
    with [str(commerce_data.get(cid, 0))] for each entity. *)
Definition row_text (current_date time_slot : string) (commerce_data : gmap Z Q)
  : string :=
  let row := [current_date; time_slot] ++
    map (fun cid => match commerce_data !! cid with
                    | Some p => str_of_price p
                    | None => "0"
                    end) sorted_cids in
  str_join " " row.

(** [save_data_row] once the file exists with text [content]: the check
    of the last line and the append. *)
Definition save_row (content : string)
    (current_date time_slot : string) (commerce_data : gmap Z Q)
  : result (option string) :=
  let lines := readlines content in
  last_line ← (if (1 <? len lines)%Z then
                 l ← getitem lines (-1); Ok (Some (strip l))
               else Ok None);
  let append :=
    Ok (Some (content +:+ row_text current_date time_slot commerce_data
              +:+ newline)) in
  match last_line with
  | Some ll =>
      if negb (String.eqb ll "") then
        let parts := split ll in
        if (2 <=? len parts)%Z then
          last_date ← getitem parts 0;
          last_time ← getitem parts 1;
          if String.eqb last_date current_date && String.eqb last_time time_slot
          then Ok (Some content)
          else append
        else append
      else append
  | None => append
  end.

(** [save_data_row]: the new state of the file.  A missing file is first
    created with the header line. *)
Definition save_data_row (file : option string)
    (current_date time_slot : string) (commerce_data : gmap Z Q)
  : result (option string) :=
  content ← match file with
            | None =>
                names ← commerce_names;
                let header := "日期 时间 " +:+ str_join " " names in
                Ok (header +:+ newline)
            | Some c => Ok c
            end;
  save_row content current_date time_slot commerce_data.

(** The state of the loop of [build_series_from_history]. *)
Definition series_cell (parts : list string) (values_by_cid : gmap Z (list (option Q)))
    (idx_cid : Z * Z) : result (gmap Z (list (option Q))) :=
  let '(idx, cid) := idx_cid in
  let v := parse_cell parts idx in
  match values_by_cid !! cid with
  | None => Raise KeyError
  | Some l => Ok (<[cid := l ++ [v]]> values_by_cid)
  end.

Definition series_line (st : list string * gmap Z (list (option Q))) (line : string)
  : result (list string * gmap Z (list (option Q))) :=
  let '(times, values_by_cid) := st in
  let parts := split line in
  if (len parts <? 2 + len COMMERCE_MAP)%Z then Ok st
  else
    date_str ← getitem parts 0;
    time_str ← getitem parts 1;
    let times := times ++ [date_str +:+ " " +:+ time_str] in
    values_by_cid ← fold_result (series_cell parts) (enumerate 2 sorted_cids) values_by_cid;
    Ok (times, values_by_cid).

(** [now_str] is the text of the current time put in ['updated_at']. *)
Definition build_series_from_history (file : option string) (now_str : string)
  : result ChartPayload :=
  let empty := {| updated_at := now_str; x := []; series := [] |} in
  match file with
  | None => Ok empty
  | Some content =>
      let times : list string := [] in
      let values_by_cid : gmap Z (list (option Q)) :=
        fold_left (fun m cid => <[cid := []]> m) sorted_cids ∅ in
      let lines := stripped_lines content in
      if (len lines <=? 1)%Z then Ok empty
      else
        st ← fold_result series_line (skipn 1 lines) (times, values_by_cid);
        let '(times, values_by_cid) := st in
        series ← map_result (fun cid =>
                    name ← dict_getitem COMMERCE_MAP cid;
                    vs ← match values_by_cid !! cid with
                         | Some l => Ok l
                         | None => Raise KeyError
                         end;
                    Ok {| series_id := cid; series_name := name; values := vs |})
                  sorted_cids;
        Ok {| updated_at := now_str; x := times; series := series |}
  end.
(** The data rows that both readers of the file keep: the stripped
    non-empty lines after the first that split into at least
    [2 + len(COMMERCE_MAP)] fields. *)
Definition wide (line : string) : bool :=
  negb (len (split line) <? 2 + len COMMERCE_MAP)%Z.

Definition wide_rows (content : string) : list string :=
  List.filter wide (skipn 1 (stripped_lines content)).

(** A time stamp of the chart and the row it is made from:
    [f"{date_str} {time_str}"] of the first two fields. *)
Definition stamp_of (t line : string) : Prop :=
  exists date_str time_str rest,
    split line = date_str :: time_str :: rest /\
    t = date_str +:+ " " +:+ time_str.

(** The test [header == expected_header] on the first line. *)
Definition header_matches (content : string) : bool :=
  match stripped_lines content, commerce_names with
  | l0 :: _, Ok names => bool_decide (split l0 = ["日期"; "时间"] ++ names)
  | _, _ => false
  end.
End HistoryFile.

(** *** The report text: [format_change_value], [format_analysis_text] *)

(** The format specifications of Python are taken as they are: [:.2f],
    [:.1f] and [:+.2f] of a float, and the default format of an integer. *)
Section ReportText.
Context (fmt_2f fmt_1f fmt_plus_2f : Q -> string) (str_of_int : Z -> string).

Definition format_change_value (change : Q) : string :=
  if Qltb 0 change then "+" +:+ fmt_2f change +:+ "📈"
  else if Qltb change 0 then fmt_2f change +:+ "📉"
  else "0.00".

(** The tag [level] of the first line of the report. *)
Definition level_of (percentile : Q) : string :=
  if Qleb 80 percentile then "🔴高位"
  else if Qleb 60 percentile then "🟡中高"
  else if Qleb 40 percentile then "🟢中位"
  else if Qleb 20 percentile then "🔵中低"
  else "⚫低位".

(** The list [s] of the lines of the report. *)
Definition analysis_lines (commerce_name : string) (current_price change_value : Q)
    (analysis : PriceAnalysis) (trend_analysis : TrendResult)
    (investment_advice : Advice) : list string :=
  let level := level_of (percentile analysis) in
  let change_str := format_change_value change_value in
  [ commerce_name +:+ " " +:+ level;
    "📊当前价格：" +:+ fmt_2f current_price +:+ " (变动：" +:+ change_str +:+ ")";
    "📅历史均价：" +:+ fmt_2f (avg analysis);
    "🎬价格区间：" +:+ fmt_2f (min_price analysis) +:+ " ~ " +:+ fmt_2f (max_price analysis);
    "⬆️距最高：" +:+ fmt_2f (from_max_points analysis) +:+ "点 ("
      +:+ fmt_1f (from_max_percent analysis) +:+ "%)";
    "⬇️距最低：" +:+ fmt_plus_2f (from_min_points analysis) +:+ "点 ("
      +:+ fmt_1f (from_min_percent analysis) +:+ "%)";
    "🧮百分位：" +:+ fmt_1f (percentile analysis) +:+ "% (样本："
      +:+ str_of_int (sample_size analysis) +:+ ")";
    "📈趋势分析：" +:+ trend_description trend_analysis;
    "💵投资建议：" +:+ advice investment_advice;
    "💡操作建议：" +:+ action_desc investment_advice;
    "📝理由：" +:+ reason investment_advice;
    "🪙优先级：" +:+ stars investment_advice;
    "🧾评分：" +:+ fmt_1f (priority_score investment_advice) +:+ "/10" ].

Definition format_analysis_text (commerce_name : string) (current_price change_value : Q)
    (analysis : PriceAnalysis) (trend_analysis : TrendResult)
    (investment_advice : Advice) : string :=
  str_join newline
    (analysis_lines commerce_name current_price change_value analysis
       trend_analysis investment_advice).
End ReportText.

(** *** Sample inputs *)

(** A steadily rising series and the trend the analyser reports on it. *)
Definition rising_prices : list Q := [1; 2; 3; 4; 5; 6; 7; 8].
Definition rising_trend : TrendResult :=
  {| short_trend := "强势上升"; mid_trend := "强势上升";
     trend_strength := 100 / 7; trend_description := "强势上升，趋势稳定";
     short_slope := 1; mid_slope := 1; prices := rising_prices |}.

(** ** Basic facts about the primitives *)

Lemma Qltb_true (a b : Q) : Qltb a b = true <-> a < b.
Proof.
  unfold Qltb. rewrite Qlt_alt.
  destruct (a ?= b); split; congruence.
Qed.

Lemma Qltb_false (a b : Q) : Qltb a b = false <-> b <= a.
Proof.
  split; intros H.
  - apply Qnot_lt_le. intros Hlt. apply Qltb_true in Hlt. congruence.
  - destruct (Qltb a b) eqn:E; [|reflexivity].
    apply Qltb_true in E. exfalso. apply (Qlt_not_le _ _ E H).
Qed.

Lemma Qleb_true (a b : Q) : Qleb a b = true <-> a <= b.
Proof. apply Qle_bool_iff. Qed.

Lemma Qleb_false (a b : Q) : Qleb a b = false <-> b < a.
Proof.
  split; intros H.
  - apply Qnot_le_lt. intros Hle. apply Qleb_true in Hle. congruence.
  - destruct (Qleb a b) eqn:E; [|reflexivity].
    apply Qleb_true in E. exfalso. apply (Qlt_not_le _ _ H E).
Qed.

(** Case analysis on the boolean comparisons, leaving the order facts. *)
Ltac case_Qltb a b :=
  let E := fresh "E" in
  destruct (Qltb a b) eqn:E;
  [apply Qltb_true in E | apply Qltb_false in E].
Ltac case_Qleb a b :=
  let E := fresh "E" in
  destruct (Qleb a b) eqn:E;
  [apply Qleb_true in E | apply Qleb_false in E].

(** Turn the hypotheses on the result of [?=] into order facts. *)
Ltac Qcompare_facts :=
  repeat match goal with
  | H : (_ ?= _) = Eq |- _ => apply Qeq_alt in H
  | H : (_ ?= _) = Lt |- _ => apply Qlt_alt in H
  | H : (_ ?= _) = Gt |- _ => apply Qgt_alt in H
  end.

Lemma max2_spec (a b : Q) : a <= max2 a b /\ b <= max2 a b /\ (max2 a b = a \/ max2 a b = b).
Proof. unfold max2. case_Qltb a b; repeat split; auto; lra. Qed.

Lemma min2_spec (a b : Q) : min2 a b <= a /\ min2 a b <= b /\ (min2 a b = a \/ min2 a b = b).
Proof. unfold min2. case_Qltb b a; repeat split; auto; lra. Qed.

Lemma truediv_ok (a b : Q) : ~ b == 0 -> truediv a b = Ok (a / b).
Proof.
  intros H. unfold truediv.
  destruct (Qeq_bool b 0) eqn:E; [|reflexivity].
  apply Qeq_bool_iff in E. contradiction.
Qed.

Lemma truediv_pos (a b : Q) : 0 < b -> truediv a b = Ok (a / b).
Proof. intros H. apply truediv_ok. intros E. rewrite E in H. lra. Qed.

Lemma inject_Z_eq_0 (z : Z) : inject_Z z == 0 -> z = 0%Z.
Proof. unfold Qeq. simpl. lia. Qed.

Lemma len_app {A} (l1 l2 : list A) : len (l1 ++ l2) = (len l1 + len l2)%Z.
Proof. unfold len. rewrite length_app. lia. Qed.

Lemma len_nonneg {A} (l : list A) : (0 <= len l)%Z.
Proof. unfold len. lia. Qed.

Lemma max_returns (l : list Q) : l <> [] -> returns (Py.max l).
Proof. destruct l; [congruence|]. intros _. eexists. reflexivity. Qed.

Lemma min_returns (l : list Q) : l <> [] -> returns (Py.min l).
Proof. destruct l; [congruence|]. intros _. eexists. reflexivity. Qed.

Lemma mean_returns (l : list Q) : l <> [] -> returns (mean l).
Proof. destruct l; [congruence|]. intros _. eexists. reflexivity. Qed.

Lemma getitem_first {A} (l : list A) : l <> [] -> returns (getitem l 0).
Proof. destruct l; [congruence|]. intros _. eexists. reflexivity. Qed.

Lemma getitem_last {A} (l : list A) : l <> [] -> returns (getitem l (-1)).
Proof.
  intros Hl. unfold getitem.
  assert (Hn : (0 < length l)%nat) by (destruct l; [congruence | simpl; lia]).
  replace ((-1 <? 0)%Z) with true by reflexivity.
  assert (Hj : ((-1 + len l <? 0)%Z) = false) by (apply Z.ltb_ge; unfold len; lia).
  rewrite Hj.
  destruct (nth_error l (Z.to_nat (-1 + len l))) eqn:E; [eexists; reflexivity|].
  apply nth_error_None in E. unfold len in E. lia.
Qed.

Lemma length_last_slice {A} (k : nat) (l : list A) :
  (k <= length l)%nat -> (0 < k)%nat -> length (last_slice k l) = k.
Proof.
  intros Hk Hpos. destruct k; [lia|].
  unfold last_slice. rewrite length_skipn. lia.
Qed.

(** ** Neither analyser raises *)

Lemma short_trend_slope_returns (prices : list Q) :
  returns (short_trend_slope_of prices).
Proof.
  unfold short_trend_slope_of.
  destruct (length (last_slice 3 prices) =? 3)%nat eqn:E; [|eexists; reflexivity].
  apply Nat.eqb_eq in E.
  destruct (last_slice 3 prices) as [|a [|b [|c [|d t]]]]; try discriminate E.
  eexists. reflexivity.
Qed.

Lemma mid_trend_slope_returns (prices : list Q) :
  returns (mid_trend_slope_of prices).
Proof.
  unfold mid_trend_slope_of.
  set (recent_mid := last_slice (Nat.min 7 (length prices)) prices).
  destruct (2 <=? length recent_mid)%nat eqn:E; [|eexists; reflexivity].
  apply Nat.leb_le in E.
  assert (Hne : recent_mid <> []) by (intros ->; simpl in E; lia).
  destruct (getitem_last recent_mid Hne) as [a ->].
  destruct (getitem_first recent_mid Hne) as [b ->].
  cbn [mbind result_bind].
  rewrite truediv_ok; [eexists; reflexivity|].
  unfold len. intros H.
  apply inject_Z_eq_0 in H. lia.
Qed.

Lemma strengths_returns (prices : list Q) (s m : Q) :
  prices <> [] -> returns (strengths_of prices s m).
Proof.
  intros Hne. unfold strengths_of.
  destruct (max_returns prices Hne) as [hi ->].
  destruct (min_returns prices Hne) as [lo ->].
  cbn [mbind result_bind].
  case_Qltb 0 (hi - lo); [|eexists; reflexivity].
  rewrite !truediv_pos by assumption. eexists. reflexivity.
Qed.

Lemma calculate_trend_analysis_returns (prices : list Q) :
  returns (calculate_trend_analysis prices).
Proof.
  unfold calculate_trend_analysis.
  destruct (length prices <? 3)%nat eqn:E; [eexists; reflexivity|].
  apply Nat.ltb_ge in E.
  destruct (short_trend_slope_returns prices) as [s ->].
  destruct (mid_trend_slope_returns prices) as [m ->].
  cbn [mbind result_bind].
  destruct (strengths_returns prices s m) as [st ->].
  { intros ->. simpl in E. lia. }
  eexists. reflexivity.
Qed.

Lemma calculate_trend_analysis_prices (l : list Q) (tr : TrendResult) :
  calculate_trend_analysis l = Ok tr -> prices tr = l.
Proof.
  unfold calculate_trend_analysis.
  destruct (length l <? 3)%nat.
  - intros [= <-]. reflexivity.
  - destruct (short_trend_slope_of l); [|discriminate].
    destruct (mid_trend_slope_of l); [|discriminate].
    cbn [mbind result_bind].
    destruct (strengths_of l a a0); [|discriminate].
    intros [= <-]. reflexivity.
Qed.

Lemma percents_returns (a b r : Q) : returns (percents_of a b r).
Proof.
  unfold percents_of. case_Qltb 0 r; [|eexists; reflexivity].
  rewrite !truediv_pos by assumption. eexists. reflexivity.
Qed.

(** What [calculate_price_analysis] returns on a non-empty history. *)
Lemma calculate_price_analysis_nonempty (cur : Q) (hist : list Q) :
  hist <> [] ->
  exists a lo hi pc,
    mean (hist ++ [cur]) = Ok a /\
    Py.min (hist ++ [cur]) = Ok lo /\
    Py.max (hist ++ [cur]) = Ok hi /\
    percents_of (cur - lo) (cur - hi) (hi - lo) = Ok pc /\
    calculate_price_analysis cur hist =
      Ok {| avg := a; min_price := lo; max_price := hi;
            from_min_points := cur - lo; from_min_percent := fst pc;
            from_max_points := cur - hi; from_max_percent := snd pc;
            percentile :=
              inject_Z (len (List.filter (fun p => Qltb p cur) (hist ++ [cur])))
              / inject_Z (len (hist ++ [cur])) * 100;
            sample_size := len hist |}.
Proof.
  intros Hne.
  assert (Hall : hist ++ [cur] <> []) by (destruct hist; discriminate).
  destruct (mean_returns _ Hall) as [a Ha].
  destruct (min_returns _ Hall) as [lo Hlo].
  destruct (max_returns _ Hall) as [hi Hhi].
  destruct (percents_returns (cur - lo) (cur - hi) (hi - lo)) as [pc Hpc].
  exists a, lo, hi, pc. repeat split; auto.
  unfold calculate_price_analysis.
  destruct hist as [|h0 ht]; [congruence|].
  rewrite Ha, Hlo, Hhi. cbn [mbind result_bind].
  rewrite Hpc. cbn [mbind result_bind].
  rewrite truediv_ok; [reflexivity|].
  intros H. apply inject_Z_eq_0 in H.
  rewrite len_app in H. pose proof (len_nonneg (h0 :: ht)).
  change (len [cur]) with 1%Z in H. lia.
Qed.

Lemma calculate_price_analysis_returns (cur : Q) (hist : list Q) :
  returns (calculate_price_analysis cur hist).
Proof.
  destruct hist as [|h0 ht]; [eexists; reflexivity|].
  destruct (calculate_price_analysis_nonempty cur (h0 :: ht)) as (a & lo & hi & pc & _ & _ & _ & _ & H);
    [discriminate|].
  rewrite H. eexists. reflexivity.
Qed.

(** ** The fields of the advice *)

(** [calculate_investment_advice] with its pattern-matching [let]s
    replaced by projections. *)
Lemma calculate_investment_advice_fields (p : Q) (tr : TrendResult) :
  let d := direction_of (mid_trend tr) in
  let ar :=
    reversal_override p
      (is_reversing_up_of (trend_description tr) (short_trend tr) d)
      (is_reversing_down_of (trend_description tr) (short_trend tr) d)
      (base_adjustment p (trend_description tr) d) in
  let sd := score_display_of (final_score_internal_of (10 - p / 10) (fst ar)) in
  calculate_investment_advice p tr =
    {| advice := fst (fst (recommendation sd));
       advice_emoji := snd (fst (recommendation sd));
       priority_score := sd;
       stars := str_mul "⭐" (stars_count sd);
       position_level := position_level_of p;
       position_score := 10 - p / 10;
       trend_adjustment := fst ar;
       trend_direction := d;
       reason := snd ar;
       action_desc := snd (recommendation sd);
       confidence := confidence_of (prices tr) |}.
Proof.
  intros d ar sd. unfold calculate_investment_advice.
  fold d. fold ar. destruct ar as [adj rsn] eqn:Ear.
  cbn [fst snd] in sd. fold sd.
  destruct (recommendation sd) as [[adv emo] act].
  reflexivity.
Qed.

Lemma advice_trend_direction (p : Q) (tr : TrendResult) :
  trend_direction (calculate_investment_advice p tr) = direction_of (mid_trend tr).
Proof. rewrite calculate_investment_advice_fields. reflexivity. Qed.

Lemma advice_priority_score (p : Q) (tr : TrendResult) :
  priority_score (calculate_investment_advice p tr) =
  score_display_of
    (final_score_internal_of
       (position_score (calculate_investment_advice p tr))
       (trend_adjustment (calculate_investment_advice p tr))).
Proof. rewrite calculate_investment_advice_fields. reflexivity. Qed.

Lemma advice_confidence (p : Q) (tr : TrendResult) :
  confidence (calculate_investment_advice p tr) = confidence_of (prices tr).
Proof. rewrite calculate_investment_advice_fields. reflexivity. Qed.

Lemma advice_stars (p : Q) (tr : TrendResult) :
  stars (calculate_investment_advice p tr) =
  str_mul "⭐" (stars_count (priority_score (calculate_investment_advice p tr))).
Proof. rewrite calculate_investment_advice_fields. reflexivity. Qed.

Lemma final_score_internal_bounds (ps adj : Q) :
  0 <= final_score_internal_of ps adj <= 15.
Proof.
  unfold final_score_internal_of, max2, min2.
  case_Qltb (ps + adj) 15.
  - case_Qltb 0 (ps + adj); lra.
  - case_Qltb 0 15; lra.
Qed.

(** The clamp written with the library's [Qmax] and [Qmin]. *)
Lemma final_score_internal_clamp (ps adj : Q) :
  final_score_internal_of ps adj == Qmax 0 (Qmin 15 (ps + adj)).
Proof.
  unfold final_score_internal_of, max2, min2.
  case_Qltb (ps + adj) 15.
  - rewrite (Q.min_r 15 (ps + adj)) by lra.
    case_Qltb 0 (ps + adj).
    + rewrite Q.max_r by lra. reflexivity.
    + rewrite Q.max_l by lra. reflexivity.
  - rewrite (Q.min_l 15 (ps + adj)) by lra.
    case_Qltb 0 15; [|lra].
    rewrite Q.max_r by lra. reflexivity.
Qed.

Lemma score_display_scaled (fi : Q) :
  0 <= fi <= 15 ->
  score_display_of fi == fi * 10 / 15 /\ 0 <= score_display_of fi <= 10.
Proof.
  intros [H0 H15]. unfold score_display_of, min2.
  case_Qltb (fi * 10 / 15) 10.
  - split; [reflexivity|]. split; [|lra].
    unfold Qdiv. apply Qmult_le_0_compat; [lra|]. discriminate.
  - assert (fi * 10 / 15 <= 10).
    { apply Qle_shift_div_r; [reflexivity|]. lra. }
    split; lra.
Qed.

(** ** Trend analysis on short series *)

(** C6: a price sequence of fewer than three prices makes
    [calculate_trend_analysis] return, without raising, the sentinel
    result: [short_trend], [mid_trend] and [trend_description] are the
    insufficient-data label and [trend_strength], [short_slope] and
    [mid_slope] are 0. *)
Theorem short_series_sentinel (l : list Q) :
  (length l < 3)%nat ->
  exists tr,
    calculate_trend_analysis l = Ok tr /\
    short_trend tr = "数据不足" /\
    mid_trend tr = "数据不足" /\
    trend_description tr = "数据不足" /\
    trend_strength tr = 0 /\
    short_slope tr = 0 /\
    mid_slope tr = 0.
Proof.
  intros Hlen. exists (insufficient_trend l).
  unfold calculate_trend_analysis.
  apply Nat.ltb_lt in Hlen. rewrite Hlen.
  repeat split; reflexivity.
Qed.

Lemma short_series_sentinel_witness :
  exists tr,
    calculate_trend_analysis [10; 11] = Ok tr /\
    short_trend tr = "数据不足" /\
    mid_trend tr = "数据不足" /\
    trend_description tr = "数据不足" /\
    trend_strength tr = 0 /\
    short_slope tr = 0 /\
    mid_slope tr = 0.
Proof. apply (short_series_sentinel [10; 11]). simpl. lia. Defined.

(** C1: on a trend whose [mid_trend] is the insufficient-data label, none
    of the four substring tests of the direction chain succeeds and the
    closing [else] assigns [trend_direction = -2], not the 0 that the
    specification asks for; so it is for the trend of the two-price
    series [[10; 11]]. *)
Theorem insufficient_data_direction :
  (forall (p : Q) (st desc : string) (ts ss ms : Q) (ps : list Q),
     trend_direction
       (calculate_investment_advice p (mkTrend st "数据不足" ts desc ss ms ps))
     = (-2)%Z) /\
  (exists tr,
     calculate_trend_analysis [10; 11] = Ok tr /\
     mid_trend tr = "数据不足" /\
     trend_direction (calculate_investment_advice 50 tr) = (-2)%Z /\
     trend_direction (calculate_investment_advice 50 tr) <> 0%Z).
Proof.
  split.
  - intros. rewrite advice_trend_direction. reflexivity.
  - eexists. split; [reflexivity|]. split; [reflexivity|].
    rewrite advice_trend_direction. split; [reflexivity | discriminate].
Qed.

(** ** The priority score *)

(** C3: for a percentile in [0,100] and any trend result, the priority
    score is the sum [position_score + trend_adjustment] clamped to
    [0,15] and rescaled by 10/15, and lies in [0,10]. *)
Theorem priority_score_range (p : Q) (tr : TrendResult) :
  0 <= p <= 100 ->
  let adv := calculate_investment_advice p tr in
  priority_score adv
    == Qmax 0 (Qmin 15 (position_score adv + trend_adjustment adv)) * 10 / 15 /\
  0 <= priority_score adv <= 10.
Proof.
  intros _ adv. subst adv. rewrite advice_priority_score.
  set (ps := position_score _). set (adj := trend_adjustment _).
  pose proof (final_score_internal_bounds ps adj) as Hb.
  destruct (score_display_scaled _ Hb) as [Heq Hr].
  split; [|exact Hr].
  rewrite Heq. rewrite final_score_internal_clamp. reflexivity.
Qed.

Lemma priority_score_range_witness :
  0 <= 100 <= 100 /\
  let adv := calculate_investment_advice 100 (insufficient_trend []) in
  priority_score adv
    == Qmax 0 (Qmin 15 (position_score adv + trend_adjustment adv)) * 10 / 15 /\
  0 <= priority_score adv <= 10.
Proof.
  assert (H : 0 <= 100 <= 100) by (split; discriminate).
  split; [exact H|].
  exact (priority_score_range 100 (insufficient_trend []) H).
Defined.

(** ** An empty history *)

(** C10: with an empty history the pipeline of [run] (position on
    [(cur, [])], trend on [[cur]], advice from percentile 50 and the
    sentinel trend) gives [trend_direction = -2], [trend_adjustment = -2],
    a priority score of exactly 2 and the advice of the [>= 2.0] bucket,
    "建议卖出", not the watch bucket. *)
Theorem empty_history_pipeline (cur : Q) :
  exists pa tr adv,
    analyse cur [] = Ok (pa, tr, adv) /\
    percentile pa = 50 /\
    tr = insufficient_trend [cur] /\
    trend_direction adv = (-2)%Z /\
    trend_adjustment adv == -2 /\
    priority_score adv == 2 /\
    Qleb 2.0 (priority_score adv) = true /\
    advice adv = "💸建议卖出" /\
    action_desc adv = "建议减仓" /\
    advice adv <> "👀观望等待".
Proof.
  do 3 eexists. split; [reflexivity|].
  repeat split; try reflexivity.
  vm_compute. discriminate.
Qed.

(** ** The decision table at the boundary 85 *)

(** The branch taken by [base_adjustment] for a rising direction when
    [percentile >= 85]. *)
Lemma base_adjustment_ge_85_rising (p : Q) (desc : string) (d : Z) :
  85 <= p -> (1 <= d)%Z ->
  base_adjustment p desc d = (-4.0 - fl d * 1.0, "极高位追涨，风险极大"%string).
Proof.
  intros Hp Hd. unfold base_adjustment.
  case_Qleb p 15; [lra|]. case_Qleb p 35; [lra|].
  case_Qltb p 85; [lra|]. rewrite andb_false_r.
  case_Qleb 85 p; [|lra].
  apply Z.leb_le in Hd. rewrite Hd. reflexivity.
Qed.

(** The branch taken for a rising direction when [65 < percentile < 85]. *)
Lemma base_adjustment_high_rising (p : Q) (desc : string) (d : Z) :
  65 < p < 85 -> (1 <= d)%Z ->
  base_adjustment p desc d =
    ((if (d =? 2)%Z then 2.5 else 2.8), "高位上涨，谨慎持有"%string).
Proof.
  intros [Hlo Hhi] Hd. unfold base_adjustment.
  case_Qleb p 15; [lra|]. case_Qleb p 35; [lra|].
  case_Qltb 65 p; [|lra]. case_Qltb p 85; [|lra].
  apply Z.leb_le in Hd. rewrite Hd. reflexivity.
Qed.

(** C5, as the code has it: at percentile exactly 85, which
    [position_level] calls "高位", a rising direction without reversal
    flag takes the row guarded by [percentile >= 85]: the adjustment is
    [-4.0 - d], that is -6 for [d = 2] and -5 for [d = 1], with the
    extreme-high reason.  The values 2.5 and 2.8 with the high reason
    are those of [65 < percentile < 85]. *)
Theorem rising_adjustment_at_85 (tr : TrendResult) :
  let d := direction_of (mid_trend tr) in
  (1 <= d)%Z ->
  is_reversing_up_of (trend_description tr) (short_trend tr) d = false ->
  is_reversing_down_of (trend_description tr) (short_trend tr) d = false ->
  (let adv := calculate_investment_advice 85 tr in
   position_level adv = "高位" /\
   trend_adjustment adv == -4 - inject_Z d /\
   (d = 2%Z -> trend_adjustment adv == -6) /\
   (d = 1%Z -> trend_adjustment adv == -5) /\
   reason adv = "极高位追涨，风险极大") /\
  (forall p, 65 < p < 85 ->
   let adv := calculate_investment_advice p tr in
   position_level adv = "高位" /\
   (d = 2%Z -> trend_adjustment adv == 2.5) /\
   (d = 1%Z -> trend_adjustment adv == 2.8) /\
   reason adv = "高位上涨，谨慎持有").
Proof.
  intros d Hd Hup Hdown. split.
  - intros adv. subst adv. rewrite calculate_investment_advice_fields.
    fold d. rewrite Hup, Hdown.
    rewrite base_adjustment_ge_85_rising by (try lra; exact Hd).
    cbn [reversal_override position_level trend_adjustment reason fst snd].
    assert (Hadj : -4.0 - fl d * 1.0 == -4 - inject_Z d) by (unfold fl; lra).
    repeat split.
    + exact Hadj.
    + intros E. rewrite Hadj, E. reflexivity.
    + intros E. rewrite Hadj, E. reflexivity.
  - intros p Hp adv. subst adv. rewrite calculate_investment_advice_fields.
    fold d. rewrite Hup, Hdown.
    rewrite base_adjustment_high_rising by assumption.
    cbn [reversal_override position_level trend_adjustment reason fst snd].
    repeat split.
    + unfold position_level_of.
      case_Qleb p 15; [lra|]. case_Qleb p 35; [lra|]. case_Qleb p 65; [lra|].
      case_Qleb p 85; [reflexivity|lra].
    + intros ->. reflexivity.
    + intros ->. reflexivity.
Qed.

Lemma rising_adjustment_at_85_witness :
  (1 <= direction_of (mid_trend rising_trend))%Z /\
  trend_adjustment (calculate_investment_advice 85 rising_trend) == -6 /\
  trend_adjustment (calculate_investment_advice 70 rising_trend) == 2.5.
Proof.
  assert (Hd : (1 <= direction_of (mid_trend rising_trend))%Z)
    by (vm_compute; discriminate).
  assert (H70 : 65 < 70 < 85) by (split; reflexivity).
  destruct (rising_adjustment_at_85 rising_trend Hd eq_refl eq_refl) as [H85 Hhigh].
  destruct H85 as (_ & _ & H6 & _).
  destruct (Hhigh 70 H70) as (_ & H25 & _).
  split; [exact Hd|]. split; [apply H6 | apply H25]; reflexivity.
Defined.

(** C5 as stated fails: [rising_trend] is what the analyser reports on
    [rising_prices]; its direction is 2 and it raises no reversal flag,
    yet at percentile 85 the adjustment is -6 with the extreme-high
    reason, not 2.5 with the high reason. *)
Lemma rising_adjustment_at_85_counterexample :
  let tr := rising_trend in
  let d := direction_of (mid_trend tr) in
  let adv := calculate_investment_advice 85 tr in
  (exists tr', calculate_trend_analysis rising_prices = Ok tr' /\
               short_trend tr' = short_trend tr /\
               mid_trend tr' = mid_trend tr /\
               trend_description tr' = trend_description tr) /\
  d = 2%Z /\
  is_reversing_up_of (trend_description tr) (short_trend tr) d = false /\
  is_reversing_down_of (trend_description tr) (short_trend tr) d = false /\
  position_level adv = "高位" /\
  ~ trend_adjustment adv == 2.5 /\
  reason adv <> "高位上涨，谨慎持有".
Proof.
  cbv zeta. split; [eexists; split; [reflexivity|repeat split; reflexivity]|].
  repeat split; try reflexivity; vm_compute; discriminate.
Qed.

(** ** The percentile of a new maximum *)

Lemma filter_below_new_maximum (cur : Q) (hist : list Q) :
  Forall (fun p => p < cur) hist ->
  List.filter (fun p => Qltb p cur) (hist ++ [cur]) = hist.
Proof.
  intros Hall. rewrite List.filter_app. simpl.
  replace (Qltb cur cur) with false
    by (symmetry; apply Qltb_false; apply Qle_refl).
  rewrite app_nil_r.
  induction Hall as [|x l Hx _ IH]; [reflexivity|].
  simpl. apply Qltb_true in Hx. rewrite Hx, IH. reflexivity.
Qed.

(** C2, as the code has it: when the current price exceeds every price of
    a non-empty history of [n] prices, the percentile is
    [n / (n + 1) * 100], which is below 100: the current price is
    counted in the denominator. *)
Theorem new_maximum_percentile (cur : Q) (hist : list Q) :
  hist <> [] ->
  Forall (fun p => p < cur) hist ->
  exists pa,
    calculate_price_analysis cur hist = Ok pa /\
    percentile pa == inject_Z (len hist) / (inject_Z (len hist) + 1) * 100 /\
    percentile pa < 100.
Proof.
  intros Hne Hall.
  destruct (calculate_price_analysis_nonempty cur hist Hne)
    as (a & lo & hi & pc & _ & _ & _ & _ & ->).
  eexists. split; [reflexivity|]. cbn [percentile].
  rewrite (filter_below_new_maximum cur hist Hall), len_app.
  change (len [cur]) with 1%Z. rewrite inject_Z_plus.
  change (inject_Z 1) with 1.
  pose proof (len_nonneg hist) as Hn.
  assert (Hx : 0 <= inject_Z (len hist)).
  { change 0 with (inject_Z 0). rewrite <- Zle_Qle. exact Hn. }
  split; [reflexivity|].
  set (x := inject_Z (len hist)) in *.
  assert (Hq : x / (x + 1) < 1) by (apply Qlt_shift_div_r; lra).
  lra.
Qed.

Lemma new_maximum_percentile_witness :
  [1; 2; 3; 4; 5; 6; 7] <> [] /\
  Forall (fun p => p < 8) [1; 2; 3; 4; 5; 6; 7] /\
  exists pa,
    calculate_price_analysis 8 [1; 2; 3; 4; 5; 6; 7] = Ok pa /\
    percentile pa == inject_Z 7 / (inject_Z 7 + 1) * 100 /\
    percentile pa < 100.
Proof.
  assert (Hne : [1; 2; 3; 4; 5; 6; 7] <> ([] : list Q)) by discriminate.
  assert (Hall : Forall (fun p => p < 8) [1; 2; 3; 4; 5; 6; 7])
    by (repeat constructor).
  split; [exact Hne|]. split; [exact Hall|].
  exact (new_maximum_percentile 8 [1; 2; 3; 4; 5; 6; 7] Hne Hall).
Defined.

(** C2 as stated fails: the history [1..7] with current price 8, a
    unique new maximum, has percentile 87.5, not 100. *)
Lemma new_maximum_percentile_counterexample :
  [1; 2; 3; 4; 5; 6; 7] <> [] /\
  Forall (fun p => p < 8) [1; 2; 3; 4; 5; 6; 7] /\
  exists pa,
    calculate_price_analysis 8 [1; 2; 3; 4; 5; 6; 7] = Ok pa /\
    percentile pa == 87.5 /\
    ~ percentile pa == 100.
Proof.
  split; [discriminate|]. split; [repeat constructor|].
  eexists. split; [reflexivity|]. split; [reflexivity|].
  vm_compute. discriminate.
Qed.

(** ** Confidence *)

(** C4, as the code has it: the confidence of the pipeline is decided by
    the length of the series handed to the trend analyser, which is the
    history with the current price appended: fewer than 4 historical
    prices give "低", 4 to 13 give "中", 14 or more give "高". *)
Theorem confidence_by_series_length (cur : Q) (hist : list Q) :
  exists pa tr adv,
    analyse cur hist = Ok (pa, tr, adv) /\
    prices tr = hist ++ [cur] /\
    confidence adv =
      (if (len hist <? 4)%Z then "低"
       else if (len hist <? 14)%Z then "中" else "高")%string.
Proof.
  unfold analyse.
  destruct (calculate_price_analysis_returns cur hist) as [pa ->].
  destruct (calculate_trend_analysis_returns (hist ++ [cur])) as [tr Htr].
  rewrite Htr. cbn [mbind result_bind].
  apply calculate_trend_analysis_prices in Htr.
  do 3 eexists. split; [reflexivity|]. split; [exact Htr|].
  rewrite advice_confidence, Htr. unfold confidence_of.
  rewrite len_app. change (len [cur]) with 1%Z.
  destruct (len hist <? 4)%Z eqn:E4, (len hist <? 14)%Z eqn:E14,
           (len hist + 1 <? 5)%Z eqn:E5, (len hist + 1 <? 15)%Z eqn:E15;
    try reflexivity; lia.
Qed.

(** C4 as stated fails: with four historical prices, fewer than five,
    the confidence is "中" and not "低". *)
Lemma confidence_counterexample :
  exists pa tr adv,
    analyse 5 [1; 2; 3; 4] = Ok (pa, tr, adv) /\
    (len [1; 2; 3; 4] < 5)%Z /\
    confidence adv = "中" /\
    confidence adv <> "低".
Proof.
  do 3 eexists. split; [reflexivity|].
  split; [reflexivity|]. split; [reflexivity|]. vm_compute. discriminate.
Qed.

(** ** Flat histories *)

Lemma percents_flat (a b r : Q) : r == 0 -> percents_of a b r = Ok (0, 0).
Proof.
  intros Hr. unfold percents_of.
  case_Qltb 0 r; [|reflexivity]. rewrite Hr in E. lra.
Qed.

Lemma strengths_flat (l : list Q) (lo hi s m : Q) :
  Py.min l = Ok lo -> Py.max l = Ok hi -> hi - lo == 0 ->
  strengths_of l s m = Ok (0, 0).
Proof.
  intros Hlo Hhi Hr. unfold strengths_of.
  rewrite Hhi, Hlo. cbn [mbind result_bind].
  case_Qltb 0 (hi - lo); [|reflexivity]. rewrite Hr in E. lra.
Qed.

Lemma flat_series_trend (l : list Q) (lo hi : Q) :
  Py.min l = Ok lo -> Py.max l = Ok hi -> hi - lo == 0 ->
  exists tr, calculate_trend_analysis l = Ok tr /\ trend_strength tr == 0 /\
             ((3 <= length l)%nat -> short_trend tr = "横盘" /\ mid_trend tr = "横盘").
Proof.
  intros Hlo Hhi Hr. unfold calculate_trend_analysis.
  destruct (length l <? 3)%nat eqn:E.
  - eexists. split; [reflexivity|]. split; [reflexivity|].
    apply Nat.ltb_lt in E. lia.
  - destruct (short_trend_slope_returns l) as [s ->].
    destruct (mid_trend_slope_returns l) as [m ->].
    cbn [mbind result_bind].
    rewrite (strengths_flat l lo hi s m Hlo Hhi Hr).
    eexists. split; [reflexivity|]. split; [reflexivity|].
    intros _. split; reflexivity.
Qed.

(** C7: when the range [max - min] of the history with the current price
    is 0, neither analyser raises; the position analysis has
    [from_min_percent] and [from_max_percent] equal to 0, and the trend
    analysis on the same series computes the short and mid strengths as 0
    whatever the slopes, so that its [trend_strength] is 0. *)
Theorem flat_history_zero_percentages (cur : Q) (hist : list Q) (lo hi : Q) :
  Py.min (hist ++ [cur]) = Ok lo ->
  Py.max (hist ++ [cur]) = Ok hi ->
  hi - lo == 0 ->
  (exists pa, calculate_price_analysis cur hist = Ok pa /\
              from_min_percent pa = 0 /\ from_max_percent pa = 0) /\
  (forall s m, strengths_of (hist ++ [cur]) s m = Ok (0, 0)) /\
  (exists tr, calculate_trend_analysis (hist ++ [cur]) = Ok tr /\
              trend_strength tr == 0).
Proof.
  intros Hlo Hhi Hr. split; [|split].
  - destruct hist as [|h0 ht].
    + eexists. split; [reflexivity|]. split; reflexivity.
    + destruct (calculate_price_analysis_nonempty cur (h0 :: ht))
        as (a & lo' & hi' & pc & _ & Hlo' & Hhi' & Hpc & ->); [discriminate|].
      rewrite Hlo in Hlo'. rewrite Hhi in Hhi'.
      injection Hlo' as <-. injection Hhi' as <-.
      rewrite (percents_flat _ _ _ Hr) in Hpc. injection Hpc as <-.
      eexists. split; [reflexivity|]. split; reflexivity.
  - intros s m. exact (strengths_flat _ lo hi s m Hlo Hhi Hr).
  - destruct (flat_series_trend _ lo hi Hlo Hhi Hr) as (tr & Htr & Hs & _).
    exists tr. split; assumption.
Qed.

Lemma flat_history_zero_percentages_witness :
  Py.min ([10; 10; 10; 10; 10] ++ [10]) = Ok 10 /\
  Py.max ([10; 10; 10; 10; 10] ++ [10]) = Ok 10 /\
  10 - 10 == 0 /\
  (exists pa, calculate_price_analysis 10 [10; 10; 10; 10; 10] = Ok pa /\
              from_min_percent pa = 0 /\ from_max_percent pa = 0) /\
  (forall s m, strengths_of ([10; 10; 10; 10; 10] ++ [10]) s m = Ok (0, 0)) /\
  (exists tr, calculate_trend_analysis ([10; 10; 10; 10; 10] ++ [10]) = Ok tr /\
              trend_strength tr == 0).
Proof.
  assert (Hr : 10 - 10 == 0) by reflexivity.
  split; [reflexivity|]. split; [reflexivity|]. split; [exact Hr|].
  exact (flat_history_zero_percentages 10 [10; 10; 10; 10; 10] 10 10
           eq_refl eq_refl Hr).
Defined.

(** ** Stars *)

Lemma round_bounds (x : Q) : (Qfloor x <= Py.round x <= Qfloor x + 1)%Z.
Proof.
  unfold Py.round.
  destruct (x - inject_Z (Qfloor x) ?= 1 # 2); [destruct (Z.even (Qfloor x))| |]; lia.
Qed.

Lemma round_monotone (a b : Q) : a <= b -> (Py.round a <= Py.round b)%Z.
Proof.
  intros Hab. pose proof (Qfloor_resp_le _ _ Hab) as Hf.
  destruct (Z.eq_dec (Qfloor a) (Qfloor b)) as [Heq | Hne].
  - unfold Py.round. rewrite <- Heq. set (f := Qfloor a).
    destruct (a - inject_Z f ?= 1 # 2) eqn:Ea;
      destruct (b - inject_Z f ?= 1 # 2) eqn:Eb;
      Qcompare_facts;
      try (destruct (Z.even f); lia); try lia; exfalso; lra.
  - pose proof (round_bounds a). pose proof (round_bounds b). lia.
Qed.

(** C9: the number of stars, [round(priority_score / 2)] clamped to
    [1,5], is an integer between 1 and 5 for every score and does not
    decrease when the score increases; the [stars] field of the advice
    is that many stars. *)
Theorem stars_range_monotone :
  (forall s, (1 <= stars_count s <= 5)%Z) /\
  (forall s1 s2, s1 <= s2 -> (stars_count s1 <= stars_count s2)%Z) /\
  (forall p tr,
     let adv := calculate_investment_advice p tr in
     stars adv = str_mul "⭐" (stars_count (priority_score adv))).
Proof.
  split; [|split].
  - intros s. unfold stars_count. lia.
  - intros s1 s2 H. unfold stars_count.
    assert (H2 : s1 / 2 <= s2 / 2).
    { unfold Qdiv. apply Qmult_le_compat_r; [exact H | discriminate]. }
    pose proof (round_monotone _ _ H2). lia.
  - intros p tr. apply advice_stars.
Qed.

Lemma stars_range_monotone_witness :
  3 <= 9 /\ (1 <= stars_count 3 <= 5)%Z /\ (stars_count 3 <= stars_count 9)%Z.
Proof.
  assert (H : 3 <= 9) by discriminate.
  destruct stars_range_monotone as (Hr & Hm & _).
  split; [exact H|]. split; [exact (Hr 3) | exact (Hm 3 9 H)].
Defined.

(** ** The stable sort *)

Section SortedFacts.
Context {A K : Type} (ltb : K -> K -> bool) (key : A -> K) (reverse : bool).
Variable T : A -> A -> Prop.

Abbreviation bef := (before ltb reverse).

Hypothesis bef_trans :
  forall a b c, bef a b = true -> bef b c = true -> bef a c = true.
Hypothesis bef_neg_trans :
  forall a b c, bef b a = false -> bef c b = false -> bef c a = false.

Lemma insert_stable_perm (x : A) (l : list A) :
  Permutation (insert_stable ltb key reverse x l) (x :: l).
Proof.
  induction l as [|y t IH]; simpl; [reflexivity|].
  destruct (bef (key y) (key x)); [|reflexivity].
  rewrite IH. apply perm_swap.
Qed.

Lemma sorted_perm (l : list A) : Permutation (Py.sorted ltb key reverse l) l.
Proof.
  induction l as [|x t IH]; simpl; [reflexivity|].
  rewrite insert_stable_perm. apply perm_skip. exact IH.
Qed.

(** Inserting an element that preceded, in the input, all those of an
    arranged list leaves the list arranged. *)
Lemma insert_stable_arranged (x : A) (l : list A) :
  Forall (T x) l ->
  StronglySorted (arranged ltb key reverse T) l ->
  StronglySorted (arranged ltb key reverse T) (insert_stable ltb key reverse x l).
Proof.
  intros Hx Hs. induction Hs as [|y t Hst IH Hy]; simpl.
  - repeat constructor.
  - apply Forall_cons_iff in Hx as [Hxy Hxt].
    destruct (bef (key y) (key x)) eqn:E.
    + constructor; [apply IH; exact Hxt|].
      rewrite (insert_stable_perm x t).
      constructor; [left; exact E | exact Hy].
    + constructor; [constructor; assumption|].
      constructor; [right; split; assumption|].
      rewrite Forall_forall in Hy, Hxt |- *.
      intros z Hz. specialize (Hy z Hz). specialize (Hxt z Hz).
      destruct (bef (key x) (key z)) eqn:Exz; [left; exact Exz|].
      right. split; [|exact Hxt].
      destruct Hy as [Hyz | [Hzy _]].
      * destruct (bef (key z) (key x)) eqn:Ezx; [|reflexivity].
        rewrite (bef_trans _ _ _ Hyz Ezx) in E. discriminate.
      * exact (bef_neg_trans _ _ _ E Hzy).
Qed.

(** Stability: the output of [sorted] on an input ordered by [T] is
    arranged by key first and by [T] among keys of which none comes
    strictly first. *)
Lemma sorted_arranged (l : list A) :
  StronglySorted T l ->
  StronglySorted (arranged ltb key reverse T) (Py.sorted ltb key reverse l).
Proof.
  induction 1 as [|x t Hst IH Hx]; simpl; [constructor|].
  apply insert_stable_arranged; [|exact IH].
  rewrite sorted_perm. exact Hx.
Qed.
End SortedFacts.

Lemma enumerate_values {A} (start : Z) (l : list A) :
  map snd (enumerate start l) = l.
Proof.
  revert start. induction l as [|x t IH]; intros start; simpl; [reflexivity|].
  rewrite IH. reflexivity.
Qed.

Lemma enumerate_ranks {A} (start : Z) (l : list A) :
  map fst (enumerate start l) =
  map (fun i => (start + Z.of_nat i)%Z) (seq 0 (length l)).
Proof.
  revert start. induction l as [|x t IH]; intros start; simpl; [reflexivity|].
  rewrite IH, <- seq_shift, map_map. f_equal; [f_equal; lia|].
  apply map_ext. intros i. lia.
Qed.

(** ** The ranking *)

Lemma analyse_returns (cur : Q) (hist : list Q) : returns (analyse cur hist).
Proof.
  unfold analyse.
  destruct (calculate_price_analysis_returns cur hist) as [pa ->].
  destruct (calculate_trend_analysis_returns (hist ++ [cur])) as [tr ->].
  eexists. reflexivity.
Qed.

(** Assigning a key larger than all present ones appends it. *)
Lemma dict_setitem_fresh {V} (d : list (Z * V)) (k : Z) (v : V) :
  Forall (fun x => (fst x < k)%Z) d -> dict_setitem d k v = d ++ [(k, v)].
Proof.
  induction 1 as [|[k' v'] t Hk _ IH]; simpl; [reflexivity|].
  simpl in Hk. destruct (k' =? k)%Z eqn:E; [apply Z.eqb_eq in E; lia|].
  rewrite IH. reflexivity.
Qed.

Lemma StronglySorted_snoc {A} (R : A -> A -> Prop) (l : list A) (x : A) :
  StronglySorted R l -> Forall (fun y => R y x) l -> StronglySorted R (l ++ [x]).
Proof.
  induction 1 as [|y t Hst IH Hy]; intros Hl; simpl.
  - repeat constructor.
  - apply Forall_cons_iff in Hl as [Hyx Ht].
    constructor; [apply IH; exact Ht|].
    apply Forall_app. split; [exact Hy | repeat constructor; exact Hyx].
Qed.

Lemma StronglySorted_weaken {A} (R S : A -> A -> Prop) (l : list A) :
  (forall x y, R x y -> S x y) -> StronglySorted R l -> StronglySorted S l.
Proof.
  intros HRS. induction 1 as [|x t Hst IH Hx]; constructor; [exact IH|].
  eapply List.Forall_impl; [|exact Hx]. intros y. apply HRS.
Qed.

(** The loop over increasing ids returns, and the items of
    [commerce_analysis] are in increasing order of id. *)
Lemma analysis_loop_increasing (cids : list Z)
    (commerce_data : gmap Z Q) (historical : gmap Z (list Q))
    (acc : list (Z * Entry)) :
  StronglySorted Z.lt cids ->
  Forall (fun c => returns (dict_getitem COMMERCE_MAP c)) cids ->
  StronglySorted (fun x y => (fst x < fst y)%Z) acc ->
  Forall (fun x => Forall (fun c => (fst x < c)%Z) cids) acc ->
  exists items,
    analysis_loop cids commerce_data historical acc = Ok items /\
    StronglySorted (fun x y => (fst x < fst y)%Z) items.
Proof.
  intros Hc. revert acc.
  induction Hc as [|cid rest Hrest IH Hcid]; intros acc Hnames Hacc Hlt;
    cbn [analysis_loop].
  - eexists. split; [reflexivity | exact Hacc].
  - apply Forall_cons_iff in Hnames as [[nm Hnm] Hnames].
    assert (Hlt' : Forall (fun x => Forall (fun c => (fst x < c)%Z) rest) acc).
    { eapply List.Forall_impl; [|exact Hlt]. intros x Hx.
      apply Forall_cons_iff in Hx as [_ Hx]. exact Hx. }
    destruct (commerce_data !! cid) as [cur|]; [|apply IH; assumption].
    rewrite Hnm. cbn [mbind result_bind].
    destruct (analyse_returns cur (default [] (historical !! cid))) as [r ->].
    cbn [mbind result_bind].
    assert (Hfresh : Forall (fun x => (fst x < cid)%Z) acc).
    { eapply List.Forall_impl; [|exact Hlt]. intros x Hx.
      apply Forall_cons_iff in Hx as [Hx _]. exact Hx. }
    rewrite (dict_setitem_fresh acc cid _ Hfresh).
    apply IH; [exact Hnames| |].
    + apply StronglySorted_snoc; [exact Hacc|exact Hfresh].
    + apply Forall_app. split; [exact Hlt'|].
      repeat constructor. exact Hcid.
Qed.

Lemma commerce_analysis_increasing
    (commerce_data : gmap Z Q) (historical : gmap Z (list Q)) :
  exists items,
    commerce_analysis_of commerce_data historical = Ok items /\
    StronglySorted (fun x y => (fst x < fst y)%Z) items.
Proof.
  unfold commerce_analysis_of. apply analysis_loop_increasing.
  - repeat constructor.
  - repeat constructor; eexists; reflexivity.
  - constructor.
  - constructor.
Qed.

(** C8: the ranking of [run] is the enumeration from 1 of the analysed
    entities, each exactly once, arranged so that for any line and any
    later line the score does not increase, and on equal scores the
    entity id increases: ties keep the order of the ids, which is the
    order in which [commerce_analysis] was filled. *)
Theorem ranking_descending_stable
    (commerce_data : gmap Z Q) (historical : gmap Z (list Q)) :
  exists items lines,
    commerce_analysis_of commerce_data historical = Ok items /\
    run_ranking commerce_data historical = Ok lines /\
    StronglySorted (fun x y => (fst x < fst y)%Z) items /\
    map fst lines = map (fun i => (1 + Z.of_nat i)%Z) (seq 0 (length items)) /\
    Permutation (map snd lines) items /\
    StronglySorted ranked_before (map snd lines).
Proof.
  destruct (commerce_analysis_increasing commerce_data historical)
    as (items & Hitems & Hinc).
  exists items, (ranking items). unfold run_ranking. rewrite Hitems.
  split; [reflexivity|]. split; [reflexivity|]. split; [exact Hinc|].
  unfold ranking. rewrite enumerate_values, enumerate_ranks.
  set (key := fun x : Z * Entry => entry_priority_score (snd x)).
  pose proof (sorted_perm Qltb key true items) as Hperm.
  split; [|split].
  - rewrite (Permutation_length Hperm). reflexivity.
  - exact Hperm.
  - eapply StronglySorted_weaken;
      [|apply (sorted_arranged Qltb key true (fun x y => (fst x < fst y)%Z))].
    + intros x y Hxy. unfold arranged, before, key in Hxy. unfold ranked_before.
      destruct Hxy as [Hlt | [Hle Hid]].
      * apply Qltb_true in Hlt. split; [lra|]. intros E. rewrite E in Hlt. lra.
      * apply Qltb_false in Hle. split; [exact Hle|]. intros _. exact Hid.
    + unfold before. intros a b c Hab Hbc.
      apply Qltb_true in Hab, Hbc. apply Qltb_true. lra.
    + unfold before. intros a b c Hab Hbc.
      apply Qltb_false in Hab, Hbc. apply Qltb_false. lra.
    + exact Hinc.
Qed.

(** * Further properties of the analysers *)

(** ** [max] and [min] of a sequence *)

Lemma fold_max2_spec (t : list Q) (x : Q) :
  (fold_left max2 t x = x \/ In (fold_left max2 t x) t) /\
  x <= fold_left max2 t x /\
  Forall (fun y => y <= fold_left max2 t x) t.
Proof.
  revert x. induction t as [|y t IH]; intros x; simpl.
  - split; [left; reflexivity|]. split; [apply Qle_refl | constructor].
  - destruct (IH (max2 x y)) as (Hin & Hle & Hall).
    destruct (max2_spec x y) as (Hx & Hy & Hxy).
    split; [|split].
    + destruct Hin as [-> | Hin]; [|right; right; exact Hin].
      destruct Hxy as [-> | ->]; [left; reflexivity | right; left; reflexivity].
    + lra.
    + constructor; [lra | exact Hall].
Qed.

Lemma fold_min2_spec (t : list Q) (x : Q) :
  (fold_left min2 t x = x \/ In (fold_left min2 t x) t) /\
  fold_left min2 t x <= x /\
  Forall (fun y => fold_left min2 t x <= y) t.
Proof.
  revert x. induction t as [|y t IH]; intros x; simpl.
  - split; [left; reflexivity|]. split; [apply Qle_refl | constructor].
  - destruct (IH (min2 x y)) as (Hin & Hle & Hall).
    destruct (min2_spec x y) as (Hx & Hy & Hxy).
    split; [|split].
    + destruct Hin as [-> | Hin]; [|right; right; exact Hin].
      destruct Hxy as [-> | ->]; [left; reflexivity | right; left; reflexivity].
    + lra.
    + constructor; [lra | exact Hall].
Qed.

Lemma max_spec (l : list Q) (hi : Q) :
  Py.max l = Ok hi -> In hi l /\ Forall (fun y => y <= hi) l.
Proof.
  destruct l as [|x t]; [discriminate|]. intros [= <-].
  destruct (fold_max2_spec t x) as (Hin & Hle & Hall).
  split; [|constructor; assumption].
  destruct Hin as [-> | Hin]; [left; reflexivity | right; exact Hin].
Qed.

Lemma min_spec (l : list Q) (lo : Q) :
  Py.min l = Ok lo -> In lo l /\ Forall (fun y => lo <= y) l.
Proof.
  destruct l as [|x t]; [discriminate|]. intros [= <-].
  destruct (fold_min2_spec t x) as (Hin & Hle & Hall).
  split; [|constructor; assumption].
  destruct Hin as [-> | Hin]; [left; reflexivity | right; exact Hin].
Qed.


Lemma len_filter_le {A} (f : A -> bool) (l : list A) :
  (len (List.filter f l) <= len l)%Z.
Proof.
  unfold len. pose proof (List.filter_length_le f l). lia.
Qed.

(** ** Position analysis *)

Lemma Qdiv_times_100_range (k n : Q) :
  0 <= k -> k < n -> 0 <= k / n * 100 < 100.
Proof.
  intros Hk Hn.
  assert (H0 : 0 <= k / n) by (apply Qle_shift_div_l; lra).
  assert (H1 : k / n < 1) by (apply Qlt_shift_div_r; lra).
  lra.
Qed.

Lemma lower_count_lt (cur : Q) (hist : list Q) :
  (len (List.filter (fun p => Qltb p cur) (hist ++ [cur])) < len (hist ++ [cur]))%Z.
Proof.
  rewrite List.filter_app, !len_app.
  assert (H : List.filter (fun p => Qltb p cur) [cur] = []).
  { simpl. replace (Qltb cur cur) with false; [reflexivity|].
    symmetry. apply Qltb_false. apply Qle_refl. }
  rewrite H. pose proof (len_filter_le (fun p => Qltb p cur) hist).
  change (len (@nil Q)) with 0%Z. change (len [cur]) with 1%Z. lia.
Qed.

Lemma price_analysis_percentile (cur : Q) (hist : list Q) :
  exists pa,
    calculate_price_analysis cur hist = Ok pa /\
    0 <= percentile pa < 100 /\
    sample_size pa = len hist.
Proof.
  destruct hist as [|h0 ht].
  - eexists. split; [reflexivity|]. cbn. split; [|reflexivity]. lra.
  - destruct (calculate_price_analysis_nonempty cur (h0 :: ht))
      as (a & lo & hi & pc & _ & _ & _ & _ & ->); [discriminate|].
    eexists. split; [reflexivity|]. cbn [percentile sample_size].
    split; [|reflexivity].
    apply Qdiv_times_100_range.
    + change 0 with (inject_Z 0). rewrite <- Zle_Qle. apply len_nonneg.
    + rewrite <- Zlt_Qlt. apply lower_count_lt.
Qed.

(** The percentile is a rank in [0,100) and never reaches 100: the
    current price is in the denominator and never below itself.  With no
    history it is the neutral 50. *)
Theorem percentile_range (cur : Q) (hist : list Q) :
  exists pa,
    calculate_price_analysis cur hist = Ok pa /\
    0 <= percentile pa < 100 /\
    sample_size pa = len hist /\
    (hist = [] -> percentile pa = 50).
Proof.
  destruct (price_analysis_percentile cur hist) as (pa & Hpa & Hr & Hs).
  exists pa. repeat split; try assumption; try apply Hr.
  intros ->. injection Hpa as <-. reflexivity.
Qed.



Lemma filter_below_minimum (cur : Q) (l : list Q) :
  Forall (fun p => cur <= p) l -> List.filter (fun p => Qltb p cur) l = [].
Proof.
  induction 1 as [|x t Hx _ IH]; [reflexivity|].
  simpl. apply Qltb_false in Hx. rewrite Hx. exact IH.
Qed.

(** When no historical price is below the current one (a new minimum,
    or a tie with the minimum) and the history is not empty, the
    percentile is 0; the neutral 50 is for the empty history only. *)
Theorem minimum_percentile (cur : Q) (hist : list Q) :
  hist <> [] ->
  Forall (fun p => cur <= p) hist ->
  exists pa,
    calculate_price_analysis cur hist = Ok pa /\
    percentile pa == 0 /\
    position_level_of (percentile pa) = "极低位".
Proof.
  intros Hne Hall.
  destruct (calculate_price_analysis_nonempty cur hist Hne)
    as (a & lo & hi & pc & _ & _ & _ & _ & ->).
  eexists. split; [reflexivity|]. cbn [percentile].
  rewrite filter_below_minimum.
  - split; reflexivity.
  - apply Forall_app. split; [exact Hall|]. repeat constructor. apply Qle_refl.
Qed.

Lemma minimum_percentile_witness :
  [10; 10; 10; 10; 10] <> [] /\
  Forall (fun p => 10 <= p) [10; 10; 10; 10; 10] /\
  exists pa,
    calculate_price_analysis 10 [10; 10; 10; 10; 10] = Ok pa /\
    percentile pa == 0 /\
    position_level_of (percentile pa) = "极低位".
Proof.
  assert (Hne : [10; 10; 10; 10; 10] <> ([] : list Q)) by discriminate.
  assert (Hall : Forall (fun p => 10 <= p) [10; 10; 10; 10; 10])
    by (repeat constructor; discriminate).
  split; [exact Hne|]. split; [exact Hall|].
  exact (minimum_percentile 10 [10; 10; 10; 10; 10] Hne Hall).
Defined.

Lemma inject_len_cons {A} (x : A) (t : list A) :
  inject_Z (len (x :: t)) == 1 + inject_Z (len t).
Proof.
  unfold len. cbn [length]. rewrite Nat2Z.inj_succ, <- Z.add_1_l.
  rewrite inject_Z_plus. reflexivity.
Qed.

Lemma fold_sum_bounds (l : list Q) (a lo hi : Q) :
  Forall (fun x => lo <= x <= hi) l ->
  a + inject_Z (len l) * lo <= fold_left Qplus l a <= a + inject_Z (len l) * hi.
Proof.
  intros H. revert a. induction H as [|x t [Hlo Hhi] _ IH]; intros a.
  - cbn [fold_left]. change (inject_Z (len (@nil Q))) with 0. lra.
  - cbn [fold_left]. rewrite inject_len_cons.
    specialize (IH (a + x)). lra.
Qed.

(** The reported average lies between the reported minimum and maximum. *)
Theorem average_between_extremes (cur : Q) (hist : list Q) :
  exists pa,
    calculate_price_analysis cur hist = Ok pa /\
    min_price pa <= avg pa <= max_price pa.
Proof.
  destruct hist as [|h0 ht].
  - eexists. split; [reflexivity|]. cbn. lra.
  - destruct (calculate_price_analysis_nonempty cur (h0 :: ht))
      as (a & lo & hi & pc & Ha & Hlo & Hhi & _ & ->); [discriminate|].
    eexists. split; [reflexivity|]. cbn [min_price max_price avg].
    apply min_spec in Hlo as [_ Hlo]. apply max_spec in Hhi as [_ Hhi].
    set (all := (h0 :: ht) ++ [cur]) in *.
    assert (Hall : Forall (fun x => lo <= x <= hi) all).
    { rewrite Forall_forall in Hlo, Hhi |- *. intros x Hx. split; auto. }
    pose proof (fold_sum_bounds all 0 lo hi Hall) as Hsum.
    assert (Hn : 0 < inject_Z (len all)).
    { change 0 with (inject_Z 0). rewrite <- Zlt_Qlt.
      unfold all. rewrite len_app. pose proof (len_nonneg (h0 :: ht)).
      change (len [cur]) with 1%Z. lia. }
    assert (Ha' : a = Py.sum all / inject_Z (len all)).
    { unfold mean in Ha. destruct all; [discriminate|]. injection Ha as <-. reflexivity. }
    rewrite Ha'. unfold Py.sum. split.
    + apply Qle_shift_div_l; [exact Hn|]. lra.
    + apply Qle_shift_div_r; [exact Hn|]. lra.
Qed.

(** ** Trend analysis on three prices or more *)

Lemma calculate_trend_analysis_long (l : list Q) :
  (3 <= length l)%nat ->
  exists s m ss ms,
    short_trend_slope_of l = Ok s /\
    mid_trend_slope_of l = Ok m /\
    strengths_of l s m = Ok (ss, ms) /\
    calculate_trend_analysis l =
      Ok {| short_trend := get_trend_direction s ss;
            mid_trend := get_trend_direction m ms;
            trend_strength := (ss + ms) / 2;
            trend_description :=
              trend_desc_of (get_trend_direction s ss) (get_trend_direction m ms) ss ms;
            short_slope := s; mid_slope := m; prices := l |}.
Proof.
  intros Hlen.
  destruct (short_trend_slope_returns l) as [s Hs].
  destruct (mid_trend_slope_returns l) as [m Hm].
  destruct (strengths_returns l s m) as [[ss ms] Hst].
  { intros ->. simpl in Hlen. lia. }
  exists s, m, ss, ms. repeat split; try assumption.
  unfold calculate_trend_analysis.
  apply Nat.ltb_ge in Hlen. rewrite Hlen, Hs, Hm. cbn [mbind result_bind].
  rewrite Hst. reflexivity.
Qed.

(** The strengths are both 0, or the absolute slopes over a positive range
    in percent. *)
Lemma strengths_spec (l : list Q) (s m ss ms : Q) :
  strengths_of l s m = Ok (ss, ms) ->
  (ss = 0 /\ ms = 0) \/
  (exists r, 0 < r /\ ss = Qabs s / r * 100 /\ ms = Qabs m / r * 100).
Proof.
  unfold strengths_of.
  destruct (Py.max l) as [hi|]; [|discriminate].
  destruct (Py.min l) as [lo|]; [|discriminate].
  cbn [mbind result_bind].
  case_Qltb 0 (hi - lo).
  - rewrite !truediv_pos by assumption. cbn [mbind result_bind].
    intros [= <- <-]. right. exists (hi - lo). repeat split; auto.
  - intros [= <- <-]. left. split; reflexivity.
Qed.

Lemma strength_nonneg (x r : Q) : 0 < r -> 0 <= Qabs x / r * 100.
Proof.
  intros Hr. pose proof (Qabs_nonneg x).
  assert (0 <= Qabs x / r) by (apply Qle_shift_div_l; lra). lra.
Qed.

Lemma strength_of_zero_slope (x r : Q) : 0 < r -> x == 0 -> Qabs x / r * 100 == 0.
Proof.
  intros Hr Hx. rewrite Hx. change (Qabs 0) with 0. field. lra.
Qed.

(** The label of a slope whose strength was derived from it: an "上升"
    label needs a positive slope, a "下降" label a negative one. *)
Lemma label_of_derived_strength (x st : Q) :
  st = 0 \/ (exists r, 0 < r /\ st = Qabs x / r * 100) ->
  let lab := get_trend_direction x st in
  (lab = "横盘" /\ st < 0.5) \/
  (lab = "强势上升" /\ 0 < x /\ 2 < st) \/
  (lab = "温和上升" /\ 0 < x /\ 0.5 <= st <= 2) \/
  (lab = "强势下降" /\ x < 0 /\ 2 < st) \/
  (lab = "温和下降" /\ x < 0 /\ 0.5 <= st <= 2).
Proof.
  intros Hst lab. subst lab. unfold get_trend_direction.
  case_Qltb st 0.5; [left; split; [reflexivity | assumption]|].
  right.
  assert (Hx : ~ x == 0).
  { intros Hx. destruct Hst as [-> | (r & Hr & ->)]; [lra|].
    rewrite (strength_of_zero_slope x r Hr Hx) in E. lra. }
  case_Qltb 0 x; cbn [andb].
  - case_Qltb 2 st.
    + left. repeat split; assumption.
    + right. left. repeat split; assumption.
  - assert (Hneg : x < 0).
    { destruct (Qlt_le_dec x 0) as [H | H]; [exact H|].
      exfalso. apply Hx. apply Qle_antisym; assumption. }
    apply Qltb_true in Hneg as Hb. rewrite Hb. cbn [andb].
    case_Qltb 2 st.
    + right. right. left. repeat split; assumption.
    + right. right. right. repeat split; assumption.
Qed.

Lemma derived_strengths (l : list Q) (s m ss ms : Q) :
  strengths_of l s m = Ok (ss, ms) ->
  (ss = 0 \/ (exists r, 0 < r /\ ss = Qabs s / r * 100)) /\
  (ms = 0 \/ (exists r, 0 < r /\ ms = Qabs m / r * 100)) /\
  0 <= ss /\ 0 <= ms.
Proof.
  intros H. apply strengths_spec in H as [[-> ->] | (r & Hr & -> & ->)].
  - repeat split; try (left; reflexivity); lra.
  - repeat split; try (right; exists r; split; [exact Hr | reflexivity]);
      apply strength_nonneg; exact Hr.
Qed.

(** On three prices or more the direction code has the sign of the
    mid-term slope: a positive code needs a rising slope, a negative
    code a falling one, a zero slope gives code 0; the composite strength
    is not negative. *)
Theorem direction_follows_mid_slope (l : list Q) :
  (3 <= length l)%nat ->
  exists tr,
    calculate_trend_analysis l = Ok tr /\
    ((0 < direction_of (mid_trend tr))%Z -> 0 < mid_slope tr) /\
    ((direction_of (mid_trend tr) < 0)%Z -> mid_slope tr < 0) /\
    (mid_slope tr == 0 -> direction_of (mid_trend tr) = 0%Z) /\
    0 <= trend_strength tr.
Proof.
  intros Hlen.
  destruct (calculate_trend_analysis_long l Hlen)
    as (s & m & ss & ms & _ & _ & Hst & ->).
  destruct (derived_strengths l s m ss ms Hst) as (_ & Hms & Hss0 & Hms0).
  eexists. split; [reflexivity|].
  cbn [mid_trend mid_slope trend_strength].
  assert (Hts : 0 <= (ss + ms) / 2) by (apply Qle_shift_div_l; lra).
  destruct (label_of_derived_strength m ms Hms)
    as [[-> _] | [(-> & Hm & _) | [(-> & Hm & _) | [(-> & Hm & _) | (-> & Hm & _)]]]];
    (split; [|split; [|split; [|exact Hts]]]);
    intros H; try (vm_compute in H; discriminate H); try reflexivity; try lra.
Qed.

Lemma direction_follows_mid_slope_witness :
  (3 <= length [10; 9; 8; 7])%nat /\
  exists tr,
    calculate_trend_analysis [10; 9; 8; 7] = Ok tr /\
    ((0 < direction_of (mid_trend tr))%Z -> 0 < mid_slope tr) /\
    ((direction_of (mid_trend tr) < 0)%Z -> mid_slope tr < 0) /\
    (mid_slope tr == 0 -> direction_of (mid_trend tr) = 0%Z) /\
    0 <= trend_strength tr.
Proof.
  assert (H : (3 <= length [10; 9; 8; 7])%nat) by (simpl; lia).
  split; [exact H|].
  exact (direction_follows_mid_slope [10; 9; 8; 7] H).
Defined.

(** On what the trend analyser returns, the two reversal flags of the
    advice are decided by the labels alone: reversing up is a rising
    short trend against a falling mid trend, reversing down the
    opposite; the test of the description for "反转" adds nothing.  A
    raised flag means slopes of opposite signs. *)
Theorem reversal_flags_of_analysis (l : list Q) :
  exists tr,
    calculate_trend_analysis l = Ok tr /\
    let d := direction_of (mid_trend tr) in
    let up := is_reversing_up_of (trend_description tr) (short_trend tr) d in
    let down := is_reversing_down_of (trend_description tr) (short_trend tr) d in
    up = str_in "上升" (short_trend tr) && str_in "下降" (mid_trend tr) /\
    down = str_in "下降" (short_trend tr) && str_in "上升" (mid_trend tr) /\
    (up = true -> mid_slope tr < 0 /\ 0 < short_slope tr) /\
    (down = true -> short_slope tr < 0 /\ 0 < mid_slope tr) /\
    (up = true -> down = false).
Proof.
  destruct (le_lt_dec 3 (length l)) as [Hlen | Hlen].
  - destruct (calculate_trend_analysis_long l Hlen)
      as (s & m & ss & ms & _ & _ & Hst & ->).
    destruct (derived_strengths l s m ss ms Hst) as (Hss & Hms & _ & _).
    eexists. split; [reflexivity|].
    cbn [mid_trend short_trend trend_description mid_slope short_slope].
    destruct (label_of_derived_strength s ss Hss)
      as [[-> _] | [(-> & Hs & _) | [(-> & Hs & _) | [(-> & Hs & _) | (-> & Hs & _)]]]];
    destruct (label_of_derived_strength m ms Hms)
      as [[-> _] | [(-> & Hm & _) | [(-> & Hm & _) | [(-> & Hm & _) | (-> & Hm & _)]]]];
    unfold trend_desc_of; destruct (Qltb ms ss);
    (split; [reflexivity|]); (split; [reflexivity|]);
    (split; [|split]); intros H;
    try (vm_compute in H; discriminate H); try reflexivity;
    split; assumption.
  - exists (insufficient_trend l). unfold calculate_trend_analysis.
    apply Nat.ltb_lt in Hlen. rewrite Hlen. split; [reflexivity|].
    cbv zeta. split; [reflexivity|]. split; [reflexivity|].
    split; [|split]; intros H; try reflexivity; vm_compute in H; discriminate H.
Qed.

(** ** The windows of the two slopes *)

Lemma last_slice_app {A} (k : nat) (pre w : list A) :
  length w = k -> (0 < k)%nat -> last_slice k (pre ++ w) = w.
Proof.
  intros Hw Hk. destruct k; [lia|]. unfold last_slice.
  rewrite length_app, Hw.
  replace (length pre + S k - S k)%nat with (length pre) by lia.
  rewrite skipn_app, skipn_all, Nat.sub_diag. reflexivity.
Qed.

Lemma getitem_last_app {A} (w : list A) (y : A) : getitem (w ++ [y]) (-1) = Ok y.
Proof.
  unfold getitem. replace ((-1 <? 0)%Z) with true by reflexivity.
  rewrite len_app. change (len [y]) with 1%Z.
  replace (-1 + (len w + 1))%Z with (len w) by lia.
  pose proof (len_nonneg w) as Hn.
  apply Z.ltb_ge in Hn. rewrite Hn. unfold len. rewrite Nat2Z.id.
  rewrite nth_error_app2 by lia. rewrite Nat.sub_diag. reflexivity.
Qed.

(** The short slope is half the difference between the last price and
    the one two places before it; the price between them and all earlier
    prices play no part. *)
Theorem short_slope_last_three (pre : list Q) (a b c : Q) :
  exists tr,
    calculate_trend_analysis (pre ++ [a; b; c]) = Ok tr /\
    short_slope tr == (c - a) / 2.
Proof.
  assert (Hlen : (3 <= length (pre ++ [a; b; c]))%nat)
    by (rewrite length_app; simpl; lia).
  destruct (calculate_trend_analysis_long _ Hlen)
    as (s & m & ss & ms & Hs & _ & _ & ->).
  eexists. split; [reflexivity|]. cbn [short_slope].
  unfold short_trend_slope_of in Hs.
  rewrite (last_slice_app 3 pre [a; b; c]) in Hs by (simpl; lia).
  cbn in Hs. injection Hs as <-. reflexivity.
Qed.

(** The mid slope spans the last seven prices when there are that many,
    and the whole series when there are three to seven: it is the
    difference between the last and the first price of that window over
    the number of steps between them. *)
Theorem mid_slope_window (pre : list Q) (x : Q) (mids : list Q) (y : Q) :
  length mids = 5%nat \/ (pre = [] /\ (1 <= length mids <= 5)%nat) ->
  exists tr,
    calculate_trend_analysis (pre ++ x :: mids ++ [y]) = Ok tr /\
    mid_slope tr == (y - x) / inject_Z (len mids + 1).
Proof.
  intros Hw.
  set (w := x :: mids ++ [y]).
  assert (Hwl : length w = S (S (length mids)))
    by (unfold w; cbn [length]; rewrite length_app; simpl; lia).
  assert (Hlen : (3 <= length (pre ++ w))%nat) by (rewrite length_app; lia).
  destruct (calculate_trend_analysis_long _ Hlen)
    as (s & m & ss & ms & _ & Hm & _ & ->).
  eexists. split; [reflexivity|]. cbn [mid_slope].
  unfold mid_trend_slope_of in Hm.
  assert (Hmin : Nat.min 7 (length (pre ++ w)) = length w).
  { rewrite length_app, Hwl.
    destruct Hw as [H5 | [-> H15]]; [rewrite H5 | cbn [length]]; lia. }
  rewrite Hmin in Hm. rewrite (last_slice_app (length w) pre w) in Hm by lia.
  replace (2 <=? length w)%nat with true in Hm by (symmetry; apply Nat.leb_le; lia).
  assert (Hlast : getitem w (-1) = Ok y) by apply (getitem_last_app (x :: mids) y).
  rewrite Hlast in Hm. cbn [mbind result_bind] in Hm.
  change (getitem w 0) with (Ok x) in Hm. cbn [mbind result_bind] in Hm.
  assert (Hz : (len w - 1 = len mids + 1)%Z) by (unfold len; lia).
  rewrite Hz in Hm.
  rewrite truediv_ok in Hm.
  - injection Hm as <-. reflexivity.
  - intros H. apply inject_Z_eq_0 in H. pose proof (len_nonneg mids). lia.
Qed.

Lemma mid_slope_window_witness :
  (length [2; 3; 4; 5; 6] = 5%nat \/
   ([0] = [] /\ (1 <= length [2; 3; 4; 5; 6] <= 5)%nat)) /\
  exists tr,
    calculate_trend_analysis ([0] ++ 1 :: [2; 3; 4; 5; 6] ++ [7]) = Ok tr /\
    mid_slope tr == (7 - 1) / inject_Z (len [2; 3; 4; 5; 6] + 1).
Proof.
  assert (H : length [2; 3; 4; 5; 6] = 5%nat \/
              ([0] = ([] : list Q) /\ (1 <= length [2; 3; 4; 5; 6] <= 5)%nat))
    by (left; reflexivity).
  split; [exact H|].
  exact (mid_slope_window [0] 1 [2; 3; 4; 5; 6] 7 H).
Defined.

(** ** The advice at the two extreme tiers *)

(** Case analysis on every comparison of the goal with a percentile. *)
Ltac split_percentile p :=
  repeat match goal with
  | |- context [Qleb p ?b] => case_Qleb p b; try lra
  | |- context [Qleb ?a p] => case_Qleb a p; try lra
  | |- context [Qltb p ?b] => case_Qltb p b; try lra
  | |- context [Qltb ?a p] => case_Qltb a p; try lra
  end.

(** The adjustment after the overrides, for any trend record: at least 4
    when [percentile <= 15], at most -1.8 when [percentile >= 85]. *)
Lemma adjustment_at_extremes (p : Q) (desc short mid : string) :
  let d := direction_of mid in
  let adj :=
    fst (reversal_override p (is_reversing_up_of desc short d)
           (is_reversing_down_of desc short d) (base_adjustment p desc d)) in
  (p <= 15 -> 4 <= adj) /\ (85 <= p -> adj <= -1.8).
Proof.
  intros d adj. subst adj d.
  unfold direction_of, is_reversing_up_of, is_reversing_down_of.
  destruct (str_in "强势上升" mid); [|destruct (str_in "温和上升" mid);
    [|destruct (str_in "横盘" mid); [|destruct (str_in "温和下降" mid)]]];
  destruct (str_in "反转" desc), (str_in "上升" short), (str_in "下降" short);
  cbn [andb Z.ltb Z.compare Pos.compare Pos.compare_cont];
  (split; intros Hp; unfold base_adjustment, reversal_override;
   split_percentile p;
   cbn [Z.leb Z.eqb Z.compare Pos.compare Pos.compare_cont Pos.eqb fst snd];
   vm_compute; discriminate).
Qed.

Lemma final_score_nonpositive (ps adj : Q) :
  ps + adj <= 0 -> final_score_internal_of ps adj = 0.
Proof.
  intros H. unfold final_score_internal_of, min2, max2.
  case_Qltb (ps + adj) 15; [|lra].
  case_Qltb 0 (ps + adj); [lra | reflexivity].
Qed.

(** From percentile 85 upwards the priority score is 0 whatever the
    trend: the advice is always the strongest sell, with one star. *)
Theorem extreme_high_always_strong_sell (p : Q) (tr : TrendResult) :
  85 <= p ->
  let adv := calculate_investment_advice p tr in
  priority_score adv == 0 /\
  advice adv = "💸💸💸强烈卖出" /\
  action_desc adv = "清仓离场" /\
  stars adv = "⭐".
Proof.
  intros Hp adv. subst adv. rewrite calculate_investment_advice_fields.
  cbn [priority_score advice action_desc stars].
  destruct (adjustment_at_extremes p (trend_description tr) (short_trend tr)
              (mid_trend tr)) as [_ Hadj].
  specialize (Hadj Hp). cbv zeta in Hadj.
  assert (Hps : 10 - p / 10 <= 1.5).
  { assert (8.5 <= p / 10) by (apply Qle_shift_div_l; lra). lra. }
  rewrite final_score_nonpositive by lra.
  repeat split; reflexivity.
Qed.

Lemma extreme_high_always_strong_sell_witness :
  85 <= 87.5 /\
  let adv := calculate_investment_advice 87.5 rising_trend in
  priority_score adv == 0 /\
  advice adv = "💸💸💸强烈卖出" /\
  action_desc adv = "清仓离场" /\
  stars adv = "⭐".
Proof.
  assert (H : 85 <= 87.5) by discriminate.
  split; [exact H|].
  exact (extreme_high_always_strong_sell 87.5 rising_trend H).
Defined.

(** Up to percentile 15 the priority score is at least 25/3 whatever the
    trend: the advice is one of the two strongest buys, with four stars
    or more. *)
Theorem extreme_low_always_buy (p : Q) (tr : TrendResult) :
  p <= 15 ->
  let adv := calculate_investment_advice p tr in
  25 # 3 <= priority_score adv /\
  (advice adv = "💰💰💰强烈买入" \/ advice adv = "💰💰买入") /\
  (4 <= stars_count (priority_score adv))%Z.
Proof.
  intros Hp adv. subst adv. rewrite calculate_investment_advice_fields.
  cbn [priority_score advice].
  destruct (adjustment_at_extremes p (trend_description tr) (short_trend tr)
              (mid_trend tr)) as [Hadj _].
  specialize (Hadj Hp). cbv zeta in Hadj.
  set (adj := fst _) in *.
  assert (Hps : 8.5 <= 10 - p / 10).
  { assert (p / 10 <= 1.5) by (apply Qle_shift_div_r; lra). lra. }
  set (ps := 10 - p / 10) in *.
  assert (Hsd : 25 # 3 <= score_display_of (final_score_internal_of ps adj)).
  { unfold score_display_of, final_score_internal_of, min2, max2.
    case_Qltb (ps + adj) 15.
    - case_Qltb 0 (ps + adj); [|lra].
      case_Qltb ((ps + adj) * 10 / 15) 10; [|discriminate].
      apply Qle_shift_div_l; [reflexivity|]. lra.
    - case_Qltb 0 15; [|lra]. vm_compute. discriminate. }
  set (sd := score_display_of _) in *.
  split; [exact Hsd|]. split.
  - unfold recommendation.
    case_Qleb 8.5 sd; [left; reflexivity|].
    case_Qleb 7.0 sd; [right; reflexivity|]. lra.
  - unfold stars_count.
    assert (H2 : (25 # 6) <= sd / 2) by (apply Qle_shift_div_l; [reflexivity|]; lra).
    pose proof (round_monotone _ _ H2) as Hr.
    change (Py.round (25 # 6)) with 4%Z in Hr. lia.
Qed.

Lemma extreme_low_always_buy_witness :
  0 <= 15 /\
  let adv := calculate_investment_advice 0 (insufficient_trend []) in
  25 # 3 <= priority_score adv /\
  (advice adv = "💰💰💰强烈买入" \/ advice adv = "💰💰买入") /\
  (4 <= stars_count (priority_score adv))%Z.
Proof.
  assert (H : 0 <= 15) by discriminate.
  split; [exact H|].
  exact (extreme_low_always_buy 0 (insufficient_trend []) H).
Defined.

(** ** The bands of the stars *)

Lemma inject_Z_succ (n : Z) : inject_Z (n + 1) == inject_Z n + 1.
Proof. rewrite inject_Z_plus. reflexivity. Qed.

Lemma inject_Z_pred (n : Z) : inject_Z (n - 1) == inject_Z n - 1.
Proof. unfold Z.sub. rewrite inject_Z_plus. reflexivity. Qed.

(** Integers apart by less than one are equal or ordered. *)
Lemma inject_Z_lt_succ (a b : Z) : inject_Z a < inject_Z b + 1 -> (a <= b)%Z.
Proof.
  intros H. rewrite <- inject_Z_succ in H. rewrite <- Zlt_Qlt in H. lia.
Qed.

Lemma round_below_half (x : Q) (n : Z) :
  x < inject_Z n + (1 # 2) -> (Py.round x <= n)%Z.
Proof.
  intros H. pose proof (Qfloor_le x) as Hf. unfold Py.round.
  assert (Hfn : (Qfloor x <= n)%Z) by (apply inject_Z_lt_succ; lra).
  destruct (Z.eq_dec (Qfloor x) n) as [Heq | Hne].
  - assert (Hn : inject_Z (Qfloor x) == inject_Z n) by (rewrite Heq; reflexivity).
    destruct (x - inject_Z (Qfloor x) ?= 1 # 2) eqn:E; Qcompare_facts;
      try lia; exfalso; lra.
  - destruct (x - inject_Z (Qfloor x) ?= 1 # 2); [destruct (Z.even _)| |]; lia.
Qed.

Lemma round_above_half (x : Q) (n : Z) :
  inject_Z n - (1 # 2) < x -> (n <= Py.round x)%Z.
Proof.
  intros H. pose proof (Qlt_floor x) as Hf. unfold Py.round.
  rewrite inject_Z_succ in Hf.
  assert (Hfn : (n - 1 <= Qfloor x)%Z).
  { apply inject_Z_lt_succ. rewrite inject_Z_pred. lra. }
  destruct (Z.eq_dec (Qfloor x) (n - 1)%Z) as [Heq | Hne].
  - assert (Hn : inject_Z (Qfloor x) == inject_Z n - 1).
    { rewrite Heq. apply inject_Z_pred. }
    destruct (x - inject_Z (Qfloor x) ?= 1 # 2) eqn:E; Qcompare_facts;
      try lia; exfalso; lra.
  - destruct (x - inject_Z (Qfloor x) ?= 1 # 2); [destruct (Z.even _)| |]; lia.
Qed.

Lemma round_tie (x : Q) (n : Z) :
  x == inject_Z n + (1 # 2) -> Py.round x = if Z.even n then n else (n + 1)%Z.
Proof.
  intros H. unfold Py.round.
  pose proof (Qfloor_le x) as H1. pose proof (Qlt_floor x) as H2.
  rewrite inject_Z_succ in H2.
  assert (Hf : Qfloor x = n).
  { assert ((Qfloor x <= n)%Z) by (apply inject_Z_lt_succ; lra).
    assert ((n <= Qfloor x)%Z) by (apply inject_Z_lt_succ; lra).
    lia. }
  rewrite Hf.
  assert (E : (x - inject_Z n ?= 1 # 2) = Eq) by (apply Qeq_alt; lra).
  rewrite E. reflexivity.
Qed.

(** The stars as bands of the score: one star below 3, two from 3 to 5,
    three strictly between 5 and 7, four from 7 to 9, five above 9.  The
    ties 5 and 9 go down and 3 and 7 go up, as rounding to even has it. *)
Theorem stars_bands (s : Q) :
  (s < 3 -> stars_count s = 1%Z) /\
  (3 <= s <= 5 -> stars_count s = 2%Z) /\
  (5 < s < 7 -> stars_count s = 3%Z) /\
  (7 <= s <= 9 -> stars_count s = 4%Z) /\
  (9 < s -> stars_count s = 5%Z).
Proof.
  unfold stars_count.
  assert (Hlt : forall n : Z, s < inject_Z (2 * n + 1) -> (Py.round (s / 2) <= n)%Z).
  { intros n H. apply round_below_half.
    rewrite inject_Z_plus, inject_Z_mult in H.
    change (inject_Z 2) with 2 in H. change (inject_Z 1) with 1 in H.
    assert (s / 2 < inject_Z n + (1 # 2)); [|assumption].
    apply Qlt_shift_div_r; [reflexivity|]. lra. }
  assert (Hgt : forall n : Z, inject_Z (2 * n - 1) < s -> (n <= Py.round (s / 2))%Z).
  { intros n H. apply round_above_half.
    rewrite inject_Z_pred, inject_Z_mult in H. change (inject_Z 2) with 2 in H.
    apply Qlt_shift_div_l; [reflexivity|]. lra. }
  assert (Htie : forall n : Z, s == inject_Z (2 * n + 1) ->
                 Py.round (s / 2) = if Z.even n then n else (n + 1)%Z).
  { intros n H. apply round_tie.
    rewrite inject_Z_plus, inject_Z_mult in H.
    change (inject_Z 2) with 2 in H. change (inject_Z 1) with 1 in H.
    rewrite H. field. }
  split; [|split; [|split; [|split]]].
  - intros H. pose proof (Hlt 1%Z H). lia.
  - intros [H3 H5].
    destruct (Qle_lt_or_eq _ _ H3) as [H | H].
    + pose proof (Hgt 2%Z H).
      destruct (Qle_lt_or_eq _ _ H5) as [H' | H'].
      * pose proof (Hlt 2%Z H'). lia.
      * rewrite (Htie 2%Z H'). reflexivity.
    + symmetry in H. rewrite (Htie 1%Z H). reflexivity.
  - intros [H5 H7]. pose proof (Hgt 3%Z H5). pose proof (Hlt 3%Z H7). lia.
  - intros [H7 H9].
    destruct (Qle_lt_or_eq _ _ H7) as [H | H].
    + pose proof (Hgt 4%Z H).
      destruct (Qle_lt_or_eq _ _ H9) as [H' | H'].
      * pose proof (Hlt 4%Z H'). lia.
      * rewrite (Htie 4%Z H'). reflexivity.
    + symmetry in H. rewrite (Htie 3%Z H). reflexivity.
  - intros H. pose proof (Hgt 5%Z H). lia.
Qed.

Lemma stars_bands_witness :
  (5 < 6 < 7) /\ stars_count 6 = 3%Z /\ (7 <= 9 <= 9) /\ stars_count 9 = 4%Z.
Proof.
  assert (H6 : 5 < 6 < 7) by (split; reflexivity).
  assert (H9 : 7 <= 9 <= 9) by (split; discriminate).
  destruct (stars_bands 6) as (_ & _ & B6 & _).
  destruct (stars_bands 9) as (_ & _ & _ & B9 & _).
  split; [exact H6|]. split; [exact (B6 H6)|]. split; [exact H9 | exact (B9 H9)].
Defined.

(** ** The pipeline of one entity *)

(** For every current price and history the three analyses return, and
    the percentile handed to the advice is in [0,100), so that the
    position score is in (0,10] and the priority score in [0,10]; the
    trend is computed on one price more than the sample size. *)
Theorem analyse_ranges (cur : Q) (hist : list Q) :
  exists pa tr adv,
    analyse cur hist = Ok (pa, tr, adv) /\
    0 <= percentile pa < 100 /\
    0 < position_score adv <= 10 /\
    0 <= priority_score adv <= 10 /\
    len (prices tr) = (sample_size pa + 1)%Z.
Proof.
  unfold analyse.
  destruct (price_analysis_percentile cur hist) as (pa & -> & [Hp0 Hp100] & Hs).
  destruct (calculate_trend_analysis_returns (hist ++ [cur])) as [tr Htr].
  rewrite Htr. cbn [mbind result_bind].
  apply calculate_trend_analysis_prices in Htr.
  do 3 eexists. split; [reflexivity|].
  split; [split; assumption|].
  rewrite advice_priority_score.
  pose proof (final_score_internal_bounds
                (position_score (calculate_investment_advice (percentile pa) tr))
                (trend_adjustment (calculate_investment_advice (percentile pa) tr))) as Hb.
  destruct (score_display_scaled _ Hb) as [_ Hr].
  split; [|split; [exact Hr|]].
  - rewrite calculate_investment_advice_fields. cbn [position_score].
    assert (0 <= percentile pa / 10) by (apply Qle_shift_div_l; lra).
    assert (percentile pa / 10 < 10) by (apply Qlt_shift_div_r; lra).
    lra.
  - rewrite Htr, Hs, len_app. reflexivity.
Qed.

(** ** The entities of the ranking *)

Lemma analysis_loop_items (cids : list Z)
    (commerce_data : gmap Z Q) (historical : gmap Z (list Q))
    (acc : list (Z * Entry)) :
  StronglySorted Z.lt cids ->
  Forall (fun c => returns (dict_getitem COMMERCE_MAP c)) cids ->
  Forall (fun x => Forall (fun c => (fst x < c)%Z) cids) acc ->
  exists new,
    analysis_loop cids commerce_data historical acc = Ok (acc ++ new) /\
    map fst new =
      List.filter (fun c => match commerce_data !! c with
                            | Some _ => true | None => false end) cids /\
    Forall (fun x =>
      exists cur r,
        commerce_data !! fst x = Some cur /\
        analyse cur (default [] (historical !! fst x)) = Ok r /\
        entry_priority_score (snd x) = priority_score (snd r) /\
        dict_getitem COMMERCE_MAP (fst x) = Ok (name (snd x))) new.
Proof.
  intros Hc. revert acc.
  induction Hc as [|cid rest Hrest IH Hcid]; intros acc Hnames Hlt;
    cbn [analysis_loop List.filter].
  - exists []. rewrite app_nil_r. repeat split. constructor.
  - apply Forall_cons_iff in Hnames as [[nm Hnm] Hnames].
    assert (Hlt' : Forall (fun x => Forall (fun c => (fst x < c)%Z) rest) acc).
    { eapply List.Forall_impl; [|exact Hlt]. intros x Hx.
      apply Forall_cons_iff in Hx as [_ Hx]. exact Hx. }
    destruct (commerce_data !! cid) as [cur|] eqn:Ecur; [|apply IH; assumption].
    rewrite Hnm. cbn [mbind result_bind].
    destruct (analyse_returns cur (default [] (historical !! cid))) as [r Hr].
    rewrite Hr. cbn [mbind result_bind].
    assert (Hfresh : Forall (fun x => (fst x < cid)%Z) acc).
    { eapply List.Forall_impl; [|exact Hlt]. intros x Hx.
      apply Forall_cons_iff in Hx as [Hx _]. exact Hx. }
    rewrite (dict_setitem_fresh acc cid _ Hfresh).
    destruct (IH (acc ++ [(cid, {| name := nm;
                                  entry_priority_score := priority_score (snd r) |})])
                Hnames) as (new & Hloop & Hkeys & Hnew).
    { apply Forall_app. split; [exact Hlt'|]. repeat constructor. exact Hcid. }
    eexists (_ :: new). rewrite Hloop, <- app_assoc. split; [reflexivity|].
    split; [cbn [map fst]; rewrite Hkeys; reflexivity|].
    constructor; [|exact Hnew].
    exists cur, r. cbn [fst snd name entry_priority_score]. repeat split; assumption.
Qed.

(** The ranking has one line for each of the five entities that has a
    current price, in the order of their ids before sorting; an entity
    without a current price is left out, and one without a history is
    analysed on the empty history.  Each line carries the name of the
    entity and the priority score of its own analysis. *)
Theorem commerce_analysis_entities
    (commerce_data : gmap Z Q) (historical : gmap Z (list Q)) :
  exists items,
    commerce_analysis_of commerce_data historical = Ok items /\
    map fst items =
      List.filter (fun c => match commerce_data !! c with
                            | Some _ => true | None => false end)
        [1; 2; 3; 4; 5]%Z /\
    Forall (fun x =>
      exists cur r,
        commerce_data !! fst x = Some cur /\
        analyse cur (default [] (historical !! fst x)) = Ok r /\
        entry_priority_score (snd x) = priority_score (snd r) /\
        dict_getitem COMMERCE_MAP (fst x) = Ok (name (snd x))) items.
Proof.
  unfold commerce_analysis_of.
  destruct (analysis_loop_items
              (Py.sorted Z.ltb id false (map fst COMMERCE_MAP))
              commerce_data historical []) as (new & Hloop & Hkeys & Hnew).
  - repeat constructor.
  - repeat constructor; eexists; reflexivity.
  - constructor.
  - exists new. split; [exact Hloop|]. split; [exact Hkeys | exact Hnew].
Qed.

(** * Time slots *)

(** The hours 22 and 23 of one day and the hours 0 to 9 of the next share
    one slot: 22:00 of the first day. *)
Theorem night_slot_shared (d h1 h2 : Z) :
  (22 <= h1 < 24)%Z -> (0 <= h2 < 10)%Z ->
  get_slot (mkDatetime d h1) = (d, "22:00"%string) /\
  get_slot (mkDatetime (d + 1) h2) = (d, "22:00"%string).
Proof.
  intros H1 H2. unfold get_slot. cbn [hour day slot_loop SLOTS].
  replace (h2 <? 10)%Z with true by (symmetry; apply Z.ltb_lt; lia).
  replace (h1 <? 10)%Z with false by (symmetry; apply Z.ltb_ge; lia).
  replace (h1 <? 14)%Z with false by (symmetry; apply Z.ltb_ge; lia).
  replace (h1 <? 18)%Z with false by (symmetry; apply Z.ltb_ge; lia).
  replace (h1 <? 22)%Z with false by (symmetry; apply Z.ltb_ge; lia).
  replace (22 <=? h1)%Z with true by (symmetry; apply Z.leb_le; lia).
  replace (h1 <? 24)%Z with true by (symmetry; apply Z.ltb_lt; lia).
  rewrite !andb_false_r. cbn [andb]. split; [reflexivity|].
  f_equal. lia.
Qed.

Lemma night_slot_shared_witness :
  (22 <= 23 < 24)%Z /\ (0 <= 9 < 10)%Z /\
  get_slot (mkDatetime 100 23) = (100%Z, "22:00"%string) /\
  get_slot (mkDatetime (100 + 1) 9) = (100%Z, "22:00"%string).
Proof.
  assert (H1 : (22 <= 23 < 24)%Z) by lia.
  assert (H2 : (0 <= 9 < 10)%Z) by lia.
  split; [exact H1|]. split; [exact H2|].
  exact (night_slot_shared 100 23 9 H1 H2).
Defined.

(** From 10:00 to 23:59 the slot is on the same day and is found by the
    loop over [SLOTS]: the hour lies in exactly the interval of the entry
    whose label is returned, so the fallback after the loop is never
    reached for an hour of the clock. *)
Theorem day_slot_from_table (now : datetime) :
  (10 <= hour now < 24)%Z ->
  exists start_h end_h label,
    In (start_h, end_h, label) SLOTS /\
    (start_h <= hour now < end_h)%Z /\
    slot_loop SLOTS (hour now) = Some label /\
    get_slot now = (day now, label) /\
    (forall s e l, In (s, e, l) SLOTS -> (s <= hour now < e)%Z -> l = label).
Proof.
  intros Hh.
  assert (Hcase : (10 <= hour now < 14 \/ 14 <= hour now < 18 \/
                   18 <= hour now < 22 \/ 22 <= hour now < 24)%Z) by lia.
  unfold get_slot. cbn [slot_loop SLOTS].
  replace (hour now <? 10)%Z with false by (symmetry; apply Z.ltb_ge; lia).
  destruct Hcase as [H | [H | [H | H]]];
    [exists 10%Z, 14%Z, "10:00"%string | exists 14%Z, 18%Z, "14:00"%string
    | exists 18%Z, 22%Z, "18:00"%string | exists 22%Z, 24%Z, "22:00"%string];
    (split; [cbn; tauto|]); (split; [exact H|]);
    repeat match goal with
    | |- context [(?a <=? ?b)%Z] =>
        destruct (Z.leb_spec a b); try lia
    | |- context [(?a <? ?b)%Z] =>
        destruct (Z.ltb_spec a b); try lia
    end; cbn [andb];
    (split; [reflexivity|]); (split; [reflexivity|]);
    intros s e l Hin Hse; cbn in Hin;
    repeat destruct Hin as [Hin | Hin]; try contradiction;
    injection Hin as <- <- <-; try reflexivity; lia.
Qed.

Lemma day_slot_from_table_witness :
  (10 <= hour (mkDatetime 100 15) < 24)%Z /\
  get_slot (mkDatetime 100 15) = (100%Z, "14:00"%string).
Proof.
  assert (H : (10 <= hour (mkDatetime 100 15) < 24)%Z) by (cbn; lia).
  split; [exact H|].
  destruct (day_slot_from_table (mkDatetime 100 15) H)
    as (s & e & l & _ & _ & Hl & -> & _).
  cbn in Hl. injection Hl as <-. reflexivity.
Defined.

(** * The history file *)

Lemma sorted_cids_eq : sorted_cids = [1; 2; 3; 4; 5]%Z.
Proof. reflexivity. Qed.

Lemma entity_id_cases (cid : Z) :
  (1 <= cid <= 5)%Z -> In cid [1; 2; 3; 4; 5]%Z.
Proof. intros H. cbn. lia. Qed.

Section HistoryFileFacts.
Context (readlines : string -> list string) (strip : string -> string)
        (split : string -> list string) (float_of : string -> option Q)
        (str_of_price : Q -> string).

Lemma empty_history_lookup (cid : Z) :
  empty_history !! cid = if decide (1 <= cid <= 5)%Z then Some [] else None.
Proof.
  unfold empty_history. cbn [fold_left map fst COMMERCE_MAP].
  destruct (decide (1 <= cid <= 5)%Z) as [H | H].
  - assert (Hc : (cid = 1 \/ cid = 2 \/ cid = 3 \/ cid = 4 \/ cid = 5)%Z) by lia.
    destruct Hc as [-> | [-> | [-> | [-> | ->]]]]; reflexivity.
  - rewrite !lookup_insert_ne by lia. apply lookup_empty.
Qed.

(** One row of the inner loop of the loader, on the history of one id:
    the ids of the loop gain the parsed cell of their column, if any. *)
Lemma load_cells_lookup (parts : list string) (pairs : list (Z * Z))
    (hist : gmap Z (list Q)) (cid : Z) :
  NoDup (map snd pairs) ->
  Forall (fun p => fst p = (snd p + 1)%Z) pairs ->
  fold_left (load_cell float_of parts) pairs hist !! cid =
    if decide (cid ∈ map snd pairs)
    then (fun l => l ++ option_list (parse_cell float_of parts (cid + 1))) <$> hist !! cid
    else hist !! cid.
Proof.
  intros Hnd Hidx. revert hist.
  induction pairs as [|[idx c] rest IH]; intros hist; cbn [fold_left map snd].
  - destruct (decide (cid ∈ [])) as [Hin | _]; [|reflexivity].
    apply elem_of_nil in Hin. contradiction.
  - apply NoDup_cons in Hnd as [Hc Hnd].
    apply Forall_cons_iff in Hidx as [Hi Hidx]. cbn [fst snd] in Hi. subst idx.
    rewrite (IH Hnd Hidx).
    assert (Hstep : load_cell float_of parts hist ((c + 1)%Z, c) !! cid =
              if decide (c = cid)
              then (fun l => l ++ option_list (parse_cell float_of parts (cid + 1)))
                     <$> hist !! cid
              else hist !! cid).
    { unfold load_cell. destruct (decide (c = cid)) as [-> | Hne].
      - destruct (parse_cell float_of parts (cid + 1)) as [price|]; cbn [option_list].
        + destruct (hist !! cid) as [l|] eqn:E; [|rewrite E; reflexivity].
          rewrite lookup_insert_eq. reflexivity.
        + destruct (hist !! cid) as [l|]; cbn; [rewrite app_nil_r|]; reflexivity.
      - destruct (parse_cell float_of parts (c + 1)); [|reflexivity].
        destruct (hist !! c); [|reflexivity].
        rewrite lookup_insert_ne by exact Hne. reflexivity. }
    rewrite Hstep.
    destruct (decide (c = cid)) as [-> | Hne].
    + destruct (decide (cid ∈ map snd rest)) as [Hin | _]; [contradiction|].
      destruct (decide (cid ∈ cid :: map snd rest)) as [_ | Hn]; [reflexivity|].
      exfalso. apply Hn. left.
    + destruct (decide (cid ∈ map snd rest)) as [Hin | Hnin];
        destruct (decide (cid ∈ c :: map snd rest)) as [Hin' | Hnin'];
        try reflexivity.
      * exfalso. apply Hnin'. right. exact Hin.
      * exfalso. apply elem_of_cons in Hin' as [-> | Hin'];
          [apply Hne; reflexivity | contradiction].
Qed.

Lemma load_line_lookup (hist : gmap Z (list Q)) (line : string) (cid : Z) :
  (1 <= cid <= 5)%Z ->
  load_line split float_of hist line !! cid =
    (fun l => l ++ (if wide split line
                    then option_list (parse_cell float_of (split line) (cid + 1))
                    else [])) <$> hist !! cid.
Proof.
  intros Hcid. unfold load_line, wide.
  destruct (len (split line) <? 2 + len COMMERCE_MAP)%Z; cbn [negb].
  - destruct (hist !! cid); cbn; [rewrite app_nil_r|]; reflexivity.
  - rewrite load_cells_lookup.
    + destruct (decide _) as [_ | Hn]; [reflexivity|].
      exfalso. apply Hn. apply list_elem_of_In, entity_id_cases. exact Hcid.
    + apply NoDup_ListNoDup. cbn. repeat constructor; cbn; lia.
    + repeat constructor.
Qed.
Lemma load_line_lookup_other (hist : gmap Z (list Q)) (line : string) (cid : Z) :
  ~ (1 <= cid <= 5)%Z -> load_line split float_of hist line !! cid = hist !! cid.
Proof.
  intros Hcid. unfold load_line.
  destruct (len (split line) <? 2 + len COMMERCE_MAP)%Z; [reflexivity|].
  rewrite load_cells_lookup.
  - destruct (decide _) as [Hin | _]; [|reflexivity].
    exfalso. apply Hcid. apply list_elem_of_In in Hin. cbn in Hin. lia.
  - apply NoDup_ListNoDup. cbn. repeat constructor; cbn; lia.
  - repeat constructor.
Qed.

(** The whole loop of the loader, on the history of one entity. *)
Lemma load_fold_lookup (ls : list string) (hist : gmap Z (list Q)) (cid : Z) :
  (1 <= cid <= 5)%Z ->
  fold_left (load_line split float_of) ls hist !! cid =
    (fun l => l ++ omap (fun line => parse_cell float_of (split line) (cid + 1))
                     (List.filter (wide split) ls)) <$> hist !! cid.
Proof.
  intros Hcid. revert hist.
  induction ls as [|line ls IH]; intros hist; cbn [fold_left List.filter].
  - destruct (hist !! cid); cbn; [rewrite app_nil_r|]; reflexivity.
  - rewrite IH, load_line_lookup by exact Hcid.
    destruct (hist !! cid) as [l|]; [|reflexivity]. cbn [fmap option_fmap option_map].
    f_equal. destruct (wide split line); [|rewrite app_nil_r; reflexivity].
    cbn [omap list_omap].
    destruct (parse_cell float_of (split line) (cid + 1)); cbn [option_list].
    + rewrite <- app_assoc. reflexivity.
    + rewrite app_nil_r. reflexivity.
Qed.

Lemma load_fold_lookup_other (ls : list string) (hist : gmap Z (list Q)) (cid : Z) :
  ~ (1 <= cid <= 5)%Z ->
  fold_left (load_line split float_of) ls hist !! cid = hist !! cid.
Proof.
  intros Hcid. revert hist.
  induction ls as [|line ls IH]; intros hist; cbn [fold_left]; [reflexivity|].
  rewrite IH. apply load_line_lookup_other. exact Hcid.
Qed.

Lemma commerce_names_eq :
  commerce_names =
    Ok ["地精金库"; "史莱姆保护协会"; "传说武库"; "明钻商户"; "魔龙教会"]%string.
Proof. reflexivity. Qed.

(** The loader on an existing file. *)
Lemma load_of_content (content : string) :
  exists hist,
    load_historical_data readlines strip split float_of (Some content) = Ok hist /\
    forall cid,
      hist !! cid =
        if decide (1 <= cid <= 5)%Z
        then Some (if header_matches readlines strip split content
                   then omap (fun line => parse_cell float_of (split line) (cid + 1))
                          (wide_rows readlines strip split content)
                   else [])
        else None.
Proof.
  unfold load_historical_data, header_matches, wide_rows.
  destruct (stripped_lines readlines strip content) as [|l0 rest] eqn:El;
    [eexists; split; [reflexivity | intros cid; apply empty_history_lookup]|].
  change (getitem (l0 :: rest) 0) with (Ok l0).
  rewrite commerce_names_eq. cbn [mbind result_bind].
  destruct (bool_decide _) eqn:Eh; cbn [negb];
    [|eexists; split; [reflexivity | intros cid; apply empty_history_lookup]].
  eexists. split; [reflexivity|]. intros cid. cbn [skipn].
  destruct (decide (1 <= cid <= 5)%Z) as [Hcid | Hcid].
  - rewrite load_fold_lookup by exact Hcid. rewrite empty_history_lookup.
    destruct (decide (1 <= cid <= 5)%Z); [reflexivity | contradiction].
  - rewrite load_fold_lookup_other by exact Hcid. rewrite empty_history_lookup.
    destruct (decide (1 <= cid <= 5)%Z); [contradiction | reflexivity].
Qed.

(** The loader never raises.  It returns a history for each of the five
    entities and for nothing else.  When the file is missing, has no
    non-blank line or has another header than the expected one, every
    history is empty; otherwise the history of entity [cid] is made, in
    order, of the cells of column [cid + 1] that [float] accepts, over the
    rows of at least seven fields: a cell that does not parse is dropped
    for that entity alone. *)
Theorem load_historical_data_columns (file : option string) :
  exists hist,
    load_historical_data readlines strip split float_of file = Ok hist /\
    forall cid,
      hist !! cid =
        if decide (1 <= cid <= 5)%Z
        then Some (match file with
                   | Some content =>
                       if header_matches readlines strip split content
                       then omap (fun line => parse_cell float_of (split line) (cid + 1))
                              (wide_rows readlines strip split content)
                       else []
                   | None => []
                   end)
        else None.
Proof.
  destruct file as [content|].
  - destruct (load_of_content content) as (hist & Hload & Hlook).
    exists hist. split; [exact Hload | exact Hlook].
  - exists empty_history. split; [reflexivity|].
    intros cid. apply empty_history_lookup.
Qed.

(** ** The chart payload *)

Lemma initial_values_lookup (cid : Z) :
  fold_left (fun (m : gmap Z (list (option Q))) c => <[c := []]> m) sorted_cids ∅ !! cid
  = if decide (1 <= cid <= 5)%Z then Some [] else None.
Proof.
  rewrite sorted_cids_eq. cbn [fold_left].
  destruct (decide (1 <= cid <= 5)%Z) as [H | H].
  - assert (Hc : (cid = 1 \/ cid = 2 \/ cid = 3 \/ cid = 4 \/ cid = 5)%Z) by lia.
    destruct Hc as [-> | [-> | [-> | [-> | ->]]]]; reflexivity.
  - rewrite !lookup_insert_ne by lia. apply lookup_empty.
Qed.

Lemma series_cells_lookup (parts : list string) (pairs : list (Z * Z))
    (v : gmap Z (list (option Q))) :
  NoDup (map snd pairs) ->
  Forall (fun p => fst p = (snd p + 1)%Z) pairs ->
  Forall (fun p => is_Some (v !! snd p)) pairs ->
  exists v',
    fold_result (series_cell float_of parts) pairs v = Ok v' /\
    forall cid,
      v' !! cid =
        if decide (cid ∈ map snd pairs)
        then (fun l => l ++ [parse_cell float_of parts (cid + 1)]) <$> v !! cid
        else v !! cid.
Proof.
  intros Hnd Hidx. revert v.
  induction pairs as [|[idx c] rest IH]; intros v Hkeys;
    cbn [fold_result map snd].
  - eexists. split; [reflexivity|]. intros cid.
    destruct (decide (cid ∈ [])) as [Hin | _]; [|reflexivity].
    apply elem_of_nil in Hin. contradiction.
  - apply NoDup_cons in Hnd as [Hc Hnd].
    apply Forall_cons_iff in Hidx as [Hi Hidx]. cbn [fst snd] in Hi. subst idx.
    apply Forall_cons_iff in Hkeys as [[l Hl] Hkeys]. cbn [snd] in Hl.
    assert (Hcell : series_cell float_of parts v ((c + 1)%Z, c) =
                      Ok (<[c := l ++ [parse_cell float_of parts (c + 1)]]> v))
      by (unfold series_cell; rewrite Hl; reflexivity).
    rewrite Hcell. cbn [mbind result_bind].
    destruct (IH Hnd Hidx (<[c := l ++ [parse_cell float_of parts (c + 1)]]> v))
      as (v' & Hv' & Hlook).
    { eapply List.Forall_impl; [|exact Hkeys]. intros p Hp.
      destruct (decide (c = snd p)) as [<- | Hne].
      - rewrite lookup_insert_eq. eexists. reflexivity.
      - rewrite lookup_insert_ne by exact Hne. exact Hp. }
    exists v'. split; [exact Hv'|]. intros cid. rewrite Hlook.
    destruct (decide (c = cid)) as [-> | Hne].
    + destruct (decide (cid ∈ map snd rest)) as [Hin | _]; [contradiction|].
      destruct (decide (cid ∈ cid :: map snd rest)) as [_ | Hn];
        [|exfalso; apply Hn; left].
      rewrite lookup_insert_eq, Hl. reflexivity.
    + rewrite lookup_insert_ne by exact Hne.
      destruct (decide (cid ∈ map snd rest)) as [Hin | Hnin];
        destruct (decide (cid ∈ c :: map snd rest)) as [Hin' | Hnin'];
        try reflexivity.
      * exfalso. apply Hnin'. right. exact Hin.
      * exfalso. apply elem_of_cons in Hin' as [-> | Hin'];
          [apply Hne; reflexivity | contradiction].
Qed.

Lemma series_line_spec (times : list string) (v : gmap Z (list (option Q)))
    (line : string) :
  (forall cid, (1 <= cid <= 5)%Z -> is_Some (v !! cid)) ->
  exists new v',
    series_line split float_of (times, v) line = Ok (times ++ new, v') /\
    Forall2 (stamp_of split) new (List.filter (wide split) [line]) /\
    forall cid,
      v' !! cid =
        if decide (1 <= cid <= 5)%Z
        then (fun l => l ++ map (fun ln => parse_cell float_of (split ln) (cid + 1))
                         (List.filter (wide split) [line])) <$> v !! cid
        else v !! cid.
Proof.
  intros Hkeys. unfold series_line, wide. cbn [List.filter].
  destruct (len (split line) <? 2 + len COMMERCE_MAP)%Z eqn:Ew; cbn [negb].
  - exists [], v. rewrite app_nil_r. split; [reflexivity|]. split; [constructor|].
    intros cid. destruct (decide _); [|reflexivity].
    destruct (v !! cid); cbn; [rewrite app_nil_r|]; reflexivity.
  - apply Z.ltb_ge in Ew.
    destruct (split line) as [|d [|t rest]] eqn:Es;
      try (unfold len in Ew; cbn in Ew; lia).
    change (getitem (d :: t :: rest) 0) with (Ok d).
    change (getitem (d :: t :: rest) 1) with (Ok t).
    cbn [mbind result_bind].
    destruct (series_cells_lookup (d :: t :: rest) (enumerate 2 sorted_cids) v)
      as (v' & Hv' & Hlook).
    { apply NoDup_ListNoDup. cbn. repeat constructor; cbn; lia. }
    { repeat constructor. }
    { cbn. repeat constructor; cbn [snd]; apply Hkeys; lia. }
    rewrite Hv'. cbn [mbind result_bind].
    eexists [_], v'. split; [reflexivity|]. split.
    + constructor; [|constructor]. exists d, t, rest. split; [exact Es | reflexivity].
    + intros cid. rewrite Hlook. cbn [map]. rewrite Es.
      destruct (decide (1 <= cid <= 5)%Z) as [Hc | Hc];
        destruct (decide (cid ∈ map snd (enumerate 2 sorted_cids))) as [Hin | Hnin];
        try reflexivity.
      * exfalso. apply Hnin. apply list_elem_of_In. cbn. lia.
      * exfalso. apply Hc. apply list_elem_of_In in Hin. cbn in Hin. lia.
Qed.
Lemma filter_cons_single {A} (f : A -> bool) (a : A) (l : list A) :
  List.filter f (a :: l) = List.filter f [a] ++ List.filter f l.
Proof. cbn. destruct (f a); reflexivity. Qed.

Lemma series_fold_spec (ls : list string) (times : list string)
    (v : gmap Z (list (option Q))) :
  (forall cid, (1 <= cid <= 5)%Z -> is_Some (v !! cid)) ->
  exists new v',
    fold_result (series_line split float_of) ls (times, v) = Ok (times ++ new, v') /\
    Forall2 (stamp_of split) new (List.filter (wide split) ls) /\
    forall cid,
      v' !! cid =
        if decide (1 <= cid <= 5)%Z
        then (fun l => l ++ map (fun ln => parse_cell float_of (split ln) (cid + 1))
                         (List.filter (wide split) ls)) <$> v !! cid
        else v !! cid.
Proof.
  revert times v.
  induction ls as [|line ls IH]; intros times v Hkeys.
  - exists [], v. cbn [fold_result List.filter map]. rewrite app_nil_r.
    split; [reflexivity|]. split; [constructor|].
    intros cid. destruct (decide _); [|reflexivity].
    destruct (v !! cid); cbn; [rewrite app_nil_r|]; reflexivity.
  - destruct (series_line_spec times v line Hkeys) as (new1 & v1 & Hline & Hst1 & Hl1).
    assert (Hkeys1 : forall cid, (1 <= cid <= 5)%Z -> is_Some (v1 !! cid)).
    { intros cid Hc. rewrite Hl1.
      destruct (decide (1 <= cid <= 5)%Z); [|contradiction].
      destruct (Hkeys cid Hc) as [l ->]. eexists. reflexivity. }
    destruct (IH (times ++ new1) v1 Hkeys1) as (new2 & v2 & Hfold & Hst2 & Hl2).
    exists (new1 ++ new2), v2. cbn [fold_result]. rewrite Hline.
    cbn [mbind result_bind]. rewrite Hfold, <- app_assoc.
    split; [reflexivity|]. rewrite filter_cons_single. split.
    + apply Forall2_app; assumption.
    + intros cid. rewrite Hl2, Hl1.
      destruct (decide (1 <= cid <= 5)%Z); [|reflexivity].
      destruct (v !! cid) as [l|]; [|reflexivity].
      cbn [fmap option_fmap option_map]. rewrite map_app, app_assoc. reflexivity.
Qed.

(** The chart builder on an existing file. *)
Lemma build_of_content (content now_str : string) :
  exists payload,
    build_series_from_history readlines strip split float_of (Some content) now_str
      = Ok payload /\
    updated_at payload = now_str /\
    if (1 <? len (stripped_lines readlines strip content))%Z then
      Forall2 (stamp_of split) (x payload) (wide_rows readlines strip split content) /\
      map series_id (series payload) = [1; 2; 3; 4; 5]%Z /\
      Forall (fun s =>
        dict_getitem COMMERCE_MAP (series_id s) = Ok (series_name s) /\
        values s = map (fun ln => parse_cell float_of (split ln) (series_id s + 1))
                     (wide_rows readlines strip split content)) (series payload)
    else x payload = [] /\ series payload = [].
Proof.
  unfold build_series_from_history, wide_rows.
  set (lines := stripped_lines readlines strip content).
  destruct (len lines <=? 1)%Z eqn:E.
  - apply Z.leb_le in E.
    replace (1 <? len lines)%Z with false by (symmetry; apply Z.ltb_ge; lia).
    eexists. repeat split; reflexivity.
  - apply Z.leb_gt in E.
    replace (1 <? len lines)%Z with true by (symmetry; apply Z.ltb_lt; lia).
    destruct (series_fold_spec (skipn 1 lines) []
                (fold_left (fun (m : gmap Z (list (option Q))) c => <[c := []]> m)
                   sorted_cids ∅)) as (new & v' & Hfold & Hst & Hlook).
    { intros cid Hc. rewrite initial_values_lookup.
      destruct (decide (1 <= cid <= 5)%Z); [eexists; reflexivity | contradiction]. }
    rewrite Hfold. cbn [mbind result_bind app].
    assert (Hv : forall cid, (1 <= cid <= 5)%Z ->
              v' !! cid = Some (map (fun ln => parse_cell float_of (split ln) (cid + 1))
                                  (List.filter (wide split) (skipn 1 lines)))).
    { intros cid Hc. rewrite Hlook, initial_values_lookup.
      destruct (decide (1 <= cid <= 5)%Z); [reflexivity | contradiction]. }
    rewrite sorted_cids_eq. cbn [map_result].
    rewrite !Hv by lia.
    cbn [dict_getitem COMMERCE_MAP Z.eqb Pos.eqb mbind result_bind].
    eexists. split; [reflexivity|]. cbn [updated_at x series map series_id].
    split; [reflexivity|]. split; [exact Hst|]. split; [reflexivity|].
    repeat constructor.
Qed.

(** The chart builder never raises.  Without a file, or with at most one
    non-blank line, the chart is empty.  Otherwise it has one time stamp
    for each row of at least seven fields, made of the first two fields,
    and one series for each of the five entities in the order of their
    ids, named from [COMMERCE_MAP], whose values are the cells of column
    [id + 1] of those rows, with [None] where [float] refuses the cell. *)
Theorem build_series_payload (file : option string) (now_str : string) :
  exists payload,
    build_series_from_history readlines strip split float_of file now_str = Ok payload /\
    updated_at payload = now_str /\
    match file with
    | Some content =>
        if (1 <? len (stripped_lines readlines strip content))%Z then
          Forall2 (stamp_of split) (x payload) (wide_rows readlines strip split content) /\
          map series_id (series payload) = [1; 2; 3; 4; 5]%Z /\
          Forall (fun s =>
            dict_getitem COMMERCE_MAP (series_id s) = Ok (series_name s) /\
            values s = map (fun ln => parse_cell float_of (split ln) (series_id s + 1))
                         (wide_rows readlines strip split content)) (series payload)
        else x payload = [] /\ series payload = []
    | None => x payload = [] /\ series payload = []
    end.
Proof.
  destruct file as [content|].
  - destruct (build_of_content content now_str) as (payload & Hb & Hnow & Hp).
    exists payload. split; [exact Hb|]. split; [exact Hnow | exact Hp].
  - eexists. split; [reflexivity|]. cbn. repeat split; reflexivity.
Qed.

Lemma omap_id_map {A B} (f : A -> option B) (l : list A) :
  omap id (map f l) = omap f l.
Proof.
  induction l as [|a l IH]; [reflexivity|].
  cbn [map omap list_omap]. unfold id at 1. destruct (f a); rewrite IH; reflexivity.
Qed.

(** The chart and the loaded histories agree on one file: every series
    of the chart has as many values as there are time stamps, and when
    the header is the expected one the history loaded for an entity is
    its series with the [None] values left out, so a history can be
    shorter than the time axis. *)
Theorem chart_agrees_with_history (content now_str : string) :
  exists payload hist,
    build_series_from_history readlines strip split float_of (Some content) now_str
      = Ok payload /\
    load_historical_data readlines strip split float_of (Some content) = Ok hist /\
    Forall (fun s => length (values s) = length (x payload)) (series payload) /\
    (header_matches readlines strip split content = true ->
     Forall (fun s => hist !! series_id s = Some (omap id (values s)))
       (series payload)).
Proof.
  destruct (build_of_content content now_str) as (payload & Hb & _ & Hp).
  destruct (load_of_content content) as (hist & Hl & Hh).
  exists payload, hist. split; [exact Hb|]. split; [exact Hl|].
  destruct (1 <? len (stripped_lines readlines strip content))%Z.
  - destruct Hp as (Hx & Hids & Hs).
    assert (Hin : forall s, In s (series payload) -> (1 <= series_id s <= 5)%Z).
    { intros s Hs'. apply (in_map series_id) in Hs'. rewrite Hids in Hs'.
      cbn in Hs'. lia. }
    split.
    + rewrite List.Forall_forall in Hs |- *. intros s Hs'.
      destruct (Hs s Hs') as [_ ->]. rewrite length_map.
      symmetry. eapply Forall2_length. exact Hx.
    + intros Hm. rewrite List.Forall_forall in Hs |- *. intros s Hs'.
      destruct (Hs s Hs') as [_ ->]. rewrite Hh, Hm.
      destruct (decide (1 <= series_id s <= 5)%Z) as [_ | Hn];
        [|exfalso; apply Hn; apply Hin; exact Hs'].
      rewrite omap_id_map. reflexivity.
  - destruct Hp as [_ ->]. split; [constructor | intros _; constructor].
Qed.
(** ** Saving a row *)

Lemma save_row_spec (content date slot : string) (cd : gmap Z Q) :
  let lines := readlines content in
  let appended := content +:+ row_text str_of_price date slot cd +:+ newline in
  exists content',
    save_row readlines strip split str_of_price content date slot cd
      = Ok (Some content') /\
    (content' = content \/ content' = appended) /\
    ((len lines <= 1)%Z -> content' = appended) /\
    (forall l d t rest,
       (1 < len lines)%Z -> getitem lines (-1) = Ok l ->
       strip l <> ""%string -> split (strip l) = d :: t :: rest ->
       content' = if decide (d = date /\ t = slot) then content else appended).
Proof.
  intros lines appended. unfold save_row. fold lines. fold appended.
  destruct (1 <? len lines)%Z eqn:E.
  - apply Z.ltb_lt in E.
    assert (Hne : lines <> []) by (intros H; rewrite H in E; unfold len in E; cbn in E; lia).
    destruct (getitem_last lines Hne) as [l Hl]. rewrite Hl.
    cbn [mbind result_bind].
    destruct (String.eqb (strip l) "") eqn:Ee; cbn [negb].
    + apply String.eqb_eq in Ee.
      exists appended. split; [reflexivity|]. split; [right; reflexivity|].
      split; [intros; reflexivity|].
      intros l' d t rest _ Hl' Hs _. injection Hl' as <-.
      contradiction.
    + destruct (split (strip l)) as [|d [|t rest]] eqn:Es.
      * exists appended. split; [reflexivity|]. split; [right; reflexivity|].
        split; [intros; reflexivity|].
        intros l' d t rest _ Hl' _ Hs. injection Hl' as <-.
        rewrite Es in Hs. discriminate Hs.
      * exists appended. split; [reflexivity|]. split; [right; reflexivity|].
        split; [intros; reflexivity|].
        intros l' d' t rest _ Hl' _ Hs. injection Hl' as <-.
        rewrite Es in Hs. discriminate Hs.
      * assert (H2 : (2 <=? len (d :: t :: rest))%Z = true)
          by (apply Z.leb_le; unfold len; cbn [length]; lia).
        rewrite H2.
        change (getitem (d :: t :: rest) 0) with (Ok d).
        change (getitem (d :: t :: rest) 1) with (Ok t).
        cbn [mbind result_bind].
        destruct (String.eqb d date && String.eqb t slot) eqn:Edup.
        -- apply andb_true_iff in Edup as [Hd Ht].
           apply String.eqb_eq in Hd, Ht.
           exists content. split; [reflexivity|]. split; [left; reflexivity|].
           split; [intros; lia|].
           intros l' d' t' rest' _ Hl' _ Hs. injection Hl' as <-.
           rewrite Es in Hs. injection Hs as <- <- <-.
           destruct (decide (d = date /\ t = slot)) as [_ | Hn];
             [reflexivity | exfalso; apply Hn; split; assumption].
        -- exists appended. split; [reflexivity|]. split; [right; reflexivity|].
           split; [intros; reflexivity|].
           intros l' d' t' rest' _ Hl' _ Hs. injection Hl' as <-.
           rewrite Es in Hs. injection Hs as <- <- <-.
           destruct (decide (d = date /\ t = slot)) as [[Hd Ht] | _]; [|reflexivity].
           apply String.eqb_eq in Hd, Ht. rewrite Hd, Ht in Edup. discriminate Edup.
  - apply Z.ltb_ge in E.
    exists appended. split; [reflexivity|]. split; [right; reflexivity|].
    split; [intros; reflexivity|]. intros; lia.
Qed.

(** [save_data_row] never raises and never removes or rewrites what the
    file holds: the new text is the old one (the header line, for a
    missing file) either unchanged or followed by exactly one row of the
    date, the slot and the five prices, "0" standing for a missing price.
    A file of at most one line always gets the row.  When the last of
    several lines is not blank and has two fields or more, the row is
    left out exactly when those two fields are the date and the slot. *)
Theorem save_data_row_appends (file : option string) (date slot : string)
    (cd : gmap Z Q) :
  let base :=
    match file with
    | Some c => c
    | None => "日期 时间 地精金库 史莱姆保护协会 传说武库 明钻商户 魔龙教会" +:+ newline
    end in
  let lines := readlines base in
  let appended := base +:+ row_text str_of_price date slot cd +:+ newline in
  exists content',
    save_data_row readlines strip split str_of_price file date slot cd
      = Ok (Some content') /\
    (content' = base \/ content' = appended) /\
    ((len lines <= 1)%Z -> content' = appended) /\
    (forall l d t rest,
       (1 < len lines)%Z -> getitem lines (-1) = Ok l ->
       strip l <> ""%string -> split (strip l) = d :: t :: rest ->
       content' = if decide (d = date /\ t = slot) then base else appended).
Proof.
  intros base lines appended. unfold save_data_row.
  destruct file as [c|]; cbn [mbind result_bind].
  - exact (save_row_spec c date slot cd).
  - rewrite commerce_names_eq. cbn [mbind result_bind].
    exact (save_row_spec base date slot cd).
Qed.
End HistoryFileFacts.

(** ** Instances *)

Lemma percentile_range_witness :
  exists pa, calculate_price_analysis 3 [] = Ok pa /\ percentile pa = 50.
Proof.
  destruct (percentile_range 3 []) as (pa & Hpa & _ & _ & H50).
  exists pa. split; [exact Hpa | exact (H50 eq_refl)].
Defined.


Lemma reversal_flags_of_analysis_witness :
  exists tr,
    calculate_trend_analysis [10; 9; 8; 7; 6; 5; 4; 3; 5] = Ok tr /\
    is_reversing_up_of (trend_description tr) (short_trend tr)
      (direction_of (mid_trend tr)) = true /\
    mid_slope tr < 0 /\ 0 < short_slope tr.
Proof.
  destruct (reversal_flags_of_analysis [10; 9; 8; 7; 6; 5; 4; 3; 5])
    as (tr & Htr & _ & _ & Hu & _).
  assert (Hup : is_reversing_up_of (trend_description tr) (short_trend tr)
                  (direction_of (mid_trend tr)) = true).
  { vm_compute in Htr. injection Htr as <-. reflexivity. }
  exists tr. split; [exact Htr|]. split; [exact Hup | exact (Hu Hup)].
Defined.

Lemma chart_agrees_with_history_witness :
  let readlines := fun _ : string => ["h"; "r"]%string in
  let split := fun l : string =>
    if String.eqb l "h"
    then ["日期"; "时间"; "地精金库"; "史莱姆保护协会"; "传说武库"; "明钻商户"; "魔龙教会"]%string
    else ["d"; "t"; "1"; "2"; "x"; "4"; "5"]%string in
  let float_of := fun s : string => if String.eqb s "x" then None else Some 1 in
  header_matches readlines id split "c" = true /\
  exists payload hist,
    build_series_from_history readlines id split float_of (Some "c"%string) "now" = Ok payload /\
    load_historical_data readlines id split float_of (Some "c"%string) = Ok hist /\
    Forall (fun s => hist !! series_id s = Some (omap id (values s))) (series payload).
Proof.
  intros readlines split float_of.
  assert (Hm : header_matches readlines id split "c" = true) by reflexivity.
  split; [exact Hm|].
  destruct (chart_agrees_with_history readlines id split float_of "c" "now")
    as (payload & hist & Hb & Hl & _ & H).
  exists payload, hist. split; [exact Hb|]. split; [exact Hl | exact (H Hm)].
Defined.

Lemma save_data_row_appends_witness :
  let readlines := fun _ : string => ["h"; "r"]%string in
  let split := fun _ : string => ["d"; "t"; "1"; "2"; "3"; "4"; "5"]%string in
  let str_of_price := fun _ : Q => "1"%string in
  (1 < len (readlines "c"))%Z /\
  getitem (readlines "c") (-1) = Ok "r"%string /\
  id "r"%string <> ""%string /\
  save_data_row readlines id split str_of_price (Some "c"%string) "d" "t" ∅
    = Ok (Some "c"%string) /\
  save_data_row readlines id split str_of_price (Some "c"%string) "d" "u" ∅
    = Ok (Some ("c" +:+ row_text str_of_price "d" "u" ∅ +:+ newline)).
Proof.
  intros readlines split str_of_price.
  assert (H1 : (1 < len (readlines "c"))%Z) by (unfold len; cbn; lia).
  assert (H2 : getitem (readlines "c") (-1) = Ok "r"%string) by reflexivity.
  assert (H3 : id "r"%string <> ""%string) by discriminate.
  split; [exact H1|]. split; [exact H2|]. split; [exact H3|]. split.
  - destruct (save_data_row_appends readlines id split str_of_price
                (Some "c"%string) "d" "t" ∅) as (c' & Hs & _ & _ & H).
    rewrite Hs, (H _ _ _ _ H1 H2 H3 eq_refl).
    destruct (decide _) as [_ | Hn]; [reflexivity|].
    exfalso. apply Hn. split; reflexivity.
  - destruct (save_data_row_appends readlines id split str_of_price
                (Some "c"%string) "d" "u" ∅) as (c' & Hs & _ & _ & H).
    rewrite Hs, (H _ _ _ _ H1 H2 H3 eq_refl).
    destruct (decide _) as [[_ Hn] | _]; [discriminate Hn | reflexivity].
Defined.

(** * The report text *)

Section ReportTextFacts.
Context (fmt_2f fmt_1f fmt_plus_2f : Q -> string) (str_of_int : Z -> string).

(** The tag of the header and the tier of the advice use different
    breakpoints (80/60/40/20 against 85/65/35/15) but never contradict
    each other: the report starts with the name and the tag of the
    percentile; the extreme tiers always carry the extreme tags, a
    "🟢中位" tag always comes with the tier "中位", and the tags "🔴高位"
    and "⚫低位" only with a tier of their own side. *)
Theorem report_level_consistent (commerce_name : string) (cur chg : Q)
    (pa : PriceAnalysis) (tr : TrendResult) (adv : Advice) :
  let p := percentile pa in
  (exists rest,
     format_analysis_text fmt_2f fmt_1f fmt_plus_2f str_of_int
       commerce_name cur chg pa tr adv
     = (commerce_name +:+ " " +:+ level_of p) +:+ newline +:+ rest) /\
  (position_level_of p = "极高位" -> level_of p = "🔴高位") /\
  (position_level_of p = "极低位" -> level_of p = "⚫低位") /\
  (level_of p = "🟢中位" -> position_level_of p = "中位") /\
  (level_of p = "🔴高位" ->
   position_level_of p = "高位" \/ position_level_of p = "极高位") /\
  (level_of p = "⚫低位" ->
   position_level_of p = "低位" \/ position_level_of p = "极低位").
Proof.
  intros p. split.
  - eexists. unfold format_analysis_text, analysis_lines.
    cbn [str_join]. reflexivity.
  - unfold position_level_of, level_of.
    repeat split; intros H; revert H; split_percentile p; intros H;
      try discriminate H; try reflexivity; try (left; reflexivity);
      try (right; reflexivity).
Qed.

End ReportTextFacts.

Lemma report_level_consistent_witness :
  let pa := mkPrice 5 1 9 8 100 0 0 90 7 in
  position_level_of (percentile pa) = "极高位"%string /\
  level_of (percentile pa) = "🔴高位"%string.
Proof.
  intros pa.
  assert (H : position_level_of (percentile pa) = "极高位"%string) by reflexivity.
  split; [exact H|].
  destruct (report_level_consistent
              (fun _ => "0.00"%string) (fun _ => "0.0"%string)
              (fun _ => "+0.00"%string) (fun _ => "7"%string)
              "n" 9 0 pa rising_trend
              (calculate_investment_advice 90 rising_trend)) as (_ & Hhigh & _).
  exact (Hhigh H).
Defined.
